(** * Travel-fee service (app.py): model and verified properties

    The service resolves a destination (postal code or free-form address)
    to coordinates, asks a routing service for the driving distance (with a
    great-circle fallback) and prices the trip with a franchise rule.

    Modelling conventions.
    - A Python [str] is the list of its code points ([list N]). [str.isdigit],
      [str.isspace], [str.strip] and [str.lower] follow the character
      database of CPython 3.11 (Unicode 14.0.0), tables included; a literal
      of the source is written [utf8 "..."], the text whose UTF-8 bytes are
      the bytes of the literal. Names that the program only compares and
      never computes on (JSON field names, error codes, the key of a
      [KeyError]) are plain [string]s.
    - A Python [float] is read as a real number: arithmetic, [math.sqrt],
      [math.atan2] and [math.radians] are exact. [math.sin] and [math.cos]
      are the C library's and are a parameter of the model (class [Libm]):
      whether [math.sqrt] raises in the great-circle fallback depends on
      how they round. Infinities and NaN are not represented.
    - [CACHE_COORDENADAS] is a [gmap str Coordenada] threaded through the
      state together with the network and a log of the requests issued.
    - An exception is the left summand of the result of a computation. *)

From Stdlib Require Import Reals Lra ZArith NArith Ascii String.
From stdpp Require Import gmap strings list.

(** ** Python strings *)

Notation str := (list N).

Open Scope N_scope.

(** The text of a literal: its bytes, decoded as UTF-8 (the literals of
    this file are well-formed). *)
Fixpoint decodificar_utf8 (bytes : list N) : str :=
  match bytes with
  | [] => []
  | b0 :: l1 =>
    if b0 <? 0x80 then b0 :: decodificar_utf8 l1 else
    match l1 with
    | [] => []
    | b1 :: l2 =>
      if b0 <? 0xE0 then ((b0 - 0xC0) * 64 + (b1 - 0x80)) :: decodificar_utf8 l2 else
      match l2 with
      | [] => []
      | b2 :: l3 =>
        if b0 <? 0xF0
        then ((b0 - 0xE0) * 4096 + (b1 - 0x80) * 64 + (b2 - 0x80)) :: decodificar_utf8 l3
        else
          match l3 with
          | [] => []
          | b3 :: l4 =>
            ((b0 - 0xF0) * 262144 + (b1 - 0x80) * 4096 + (b2 - 0x80) * 64 + (b3 - 0x80))
              :: decodificar_utf8 l4
          end
      end
    end
  end.

Definition utf8 (literal : string) : str :=
  decodificar_utf8 (map N_of_ascii (list_ascii_of_string literal)).

(** The code points [c] with [chr(c).isdigit()], as inclusive ranges. *)
Definition TABELA_DIGITOS : list (N * N) := [
  (0x30, 0x39); (0xB2, 0xB3); (0xB9, 0xB9); (0x660, 0x669); (0x6F0, 0x6F9); (0x7C0, 0x7C9);
  (0x966, 0x96F); (0x9E6, 0x9EF); (0xA66, 0xA6F); (0xAE6, 0xAEF); (0xB66, 0xB6F); (0xBE6, 0xBEF);
  (0xC66, 0xC6F); (0xCE6, 0xCEF); (0xD66, 0xD6F); (0xDE6, 0xDEF); (0xE50, 0xE59); (0xED0, 0xED9);
  (0xF20, 0xF29); (0x1040, 0x1049); (0x1090, 0x1099); (0x1369, 0x1371); (0x17E0, 0x17E9);
  (0x1810, 0x1819); (0x1946, 0x194F); (0x19D0, 0x19DA); (0x1A80, 0x1A89); (0x1A90, 0x1A99);
  (0x1B50, 0x1B59); (0x1BB0, 0x1BB9); (0x1C40, 0x1C49); (0x1C50, 0x1C59); (0x2070, 0x2070);
  (0x2074, 0x2079); (0x2080, 0x2089); (0x2460, 0x2468); (0x2474, 0x247C); (0x2488, 0x2490);
  (0x24EA, 0x24EA); (0x24F5, 0x24FD); (0x24FF, 0x24FF); (0x2776, 0x277E); (0x2780, 0x2788);
  (0x278A, 0x2792); (0xA620, 0xA629); (0xA8D0, 0xA8D9); (0xA900, 0xA909); (0xA9D0, 0xA9D9);
  (0xA9F0, 0xA9F9); (0xAA50, 0xAA59); (0xABF0, 0xABF9); (0xFF10, 0xFF19); (0x104A0, 0x104A9);
  (0x10A40, 0x10A43); (0x10D30, 0x10D39); (0x10E60, 0x10E68); (0x11052, 0x1105A);
  (0x11066, 0x1106F); (0x110F0, 0x110F9); (0x11136, 0x1113F); (0x111D0, 0x111D9);
  (0x112F0, 0x112F9); (0x11450, 0x11459); (0x114D0, 0x114D9); (0x11650, 0x11659);
  (0x116C0, 0x116C9); (0x11730, 0x11739); (0x118E0, 0x118E9); (0x11950, 0x11959);
  (0x11C50, 0x11C59); (0x11D50, 0x11D59); (0x11DA0, 0x11DA9); (0x16A60, 0x16A69);
  (0x16AC0, 0x16AC9); (0x16B50, 0x16B59); (0x1D7CE, 0x1D7FF); (0x1E140, 0x1E149);
  (0x1E2F0, 0x1E2F9); (0x1E950, 0x1E959); (0x1F100, 0x1F10A); (0x1FBF0, 0x1FBF9)
].

(** The code points [c] with [chr(c).isspace()]; [str.strip()] removes the same ones. *)
Definition TABELA_ESPACOS : list (N * N) := [
  (0x9, 0xD); (0x1C, 0x20); (0x85, 0x85); (0xA0, 0xA0); (0x1680, 0x1680); (0x2000, 0x200A);
  (0x2028, 0x2029); (0x202F, 0x202F); (0x205F, 0x205F); (0x3000, 0x3000)
].

(** The simple lower-case mappings, as runs [(first, last, step, image of first)]:
    every [step]-th code point from [first] to [last] maps to the image of
    [first] plus its offset from [first]. *)
Definition TABELA_MINUSCULAS : list (N * N * N * N) := [
  (0x41, 0x5A, 1, 0x61); (0xC0, 0xD6, 1, 0xE0); (0xD8, 0xDE, 1, 0xF8); (0x100, 0x12E, 2, 0x101);
  (0x132, 0x136, 2, 0x133); (0x139, 0x147, 2, 0x13A); (0x14A, 0x176, 2, 0x14B);
  (0x178, 0x178, 1, 0xFF); (0x179, 0x17D, 2, 0x17A); (0x181, 0x181, 1, 0x253);
  (0x182, 0x184, 2, 0x183); (0x186, 0x186, 1, 0x254); (0x187, 0x187, 1, 0x188);
  (0x189, 0x18A, 1, 0x256); (0x18B, 0x18B, 1, 0x18C); (0x18E, 0x18E, 1, 0x1DD);
  (0x18F, 0x18F, 1, 0x259); (0x190, 0x190, 1, 0x25B); (0x191, 0x191, 1, 0x192);
  (0x193, 0x193, 1, 0x260); (0x194, 0x194, 1, 0x263); (0x196, 0x196, 1, 0x269);
  (0x197, 0x197, 1, 0x268); (0x198, 0x198, 1, 0x199); (0x19C, 0x19C, 1, 0x26F);
  (0x19D, 0x19D, 1, 0x272); (0x19F, 0x19F, 1, 0x275); (0x1A0, 0x1A4, 2, 0x1A1);
  (0x1A6, 0x1A6, 1, 0x280); (0x1A7, 0x1A7, 1, 0x1A8); (0x1A9, 0x1A9, 1, 0x283);
  (0x1AC, 0x1AC, 1, 0x1AD); (0x1AE, 0x1AE, 1, 0x288); (0x1AF, 0x1AF, 1, 0x1B0);
  (0x1B1, 0x1B2, 1, 0x28A); (0x1B3, 0x1B5, 2, 0x1B4); (0x1B7, 0x1B7, 1, 0x292);
  (0x1B8, 0x1B8, 1, 0x1B9); (0x1BC, 0x1BC, 1, 0x1BD); (0x1C4, 0x1C4, 1, 0x1C6);
  (0x1C5, 0x1C5, 1, 0x1C6); (0x1C7, 0x1C7, 1, 0x1C9); (0x1C8, 0x1C8, 1, 0x1C9);
  (0x1CA, 0x1CA, 1, 0x1CC); (0x1CB, 0x1DB, 2, 0x1CC); (0x1DE, 0x1EE, 2, 0x1DF);
  (0x1F1, 0x1F1, 1, 0x1F3); (0x1F2, 0x1F4, 2, 0x1F3); (0x1F6, 0x1F6, 1, 0x195);
  (0x1F7, 0x1F7, 1, 0x1BF); (0x1F8, 0x21E, 2, 0x1F9); (0x220, 0x220, 1, 0x19E);
  (0x222, 0x232, 2, 0x223); (0x23A, 0x23A, 1, 0x2C65); (0x23B, 0x23B, 1, 0x23C);
  (0x23D, 0x23D, 1, 0x19A); (0x23E, 0x23E, 1, 0x2C66); (0x241, 0x241, 1, 0x242);
  (0x243, 0x243, 1, 0x180); (0x244, 0x244, 1, 0x289); (0x245, 0x245, 1, 0x28C);
  (0x246, 0x24E, 2, 0x247); (0x370, 0x372, 2, 0x371); (0x376, 0x376, 1, 0x377);
  (0x37F, 0x37F, 1, 0x3F3); (0x386, 0x386, 1, 0x3AC); (0x388, 0x38A, 1, 0x3AD);
  (0x38C, 0x38C, 1, 0x3CC); (0x38E, 0x38F, 1, 0x3CD); (0x391, 0x3A1, 1, 0x3B1);
  (0x3A4, 0x3AB, 1, 0x3C4); (0x3CF, 0x3CF, 1, 0x3D7); (0x3D8, 0x3EE, 2, 0x3D9);
  (0x3F4, 0x3F4, 1, 0x3B8); (0x3F7, 0x3F7, 1, 0x3F8); (0x3F9, 0x3F9, 1, 0x3F2);
  (0x3FA, 0x3FA, 1, 0x3FB); (0x3FD, 0x3FF, 1, 0x37B); (0x400, 0x40F, 1, 0x450);
  (0x410, 0x42F, 1, 0x430); (0x460, 0x480, 2, 0x461); (0x48A, 0x4BE, 2, 0x48B);
  (0x4C0, 0x4C0, 1, 0x4CF); (0x4C1, 0x4CD, 2, 0x4C2); (0x4D0, 0x52E, 2, 0x4D1);
  (0x531, 0x556, 1, 0x561); (0x10A0, 0x10C5, 1, 0x2D00); (0x10C7, 0x10C7, 1, 0x2D27);
  (0x10CD, 0x10CD, 1, 0x2D2D); (0x13A0, 0x13EF, 1, 0xAB70); (0x13F0, 0x13F5, 1, 0x13F8);
  (0x1C90, 0x1CBA, 1, 0x10D0); (0x1CBD, 0x1CBF, 1, 0x10FD); (0x1E00, 0x1E94, 2, 0x1E01);
  (0x1E9E, 0x1E9E, 1, 0xDF); (0x1EA0, 0x1EFE, 2, 0x1EA1); (0x1F08, 0x1F0F, 1, 0x1F00);
  (0x1F18, 0x1F1D, 1, 0x1F10); (0x1F28, 0x1F2F, 1, 0x1F20); (0x1F38, 0x1F3F, 1, 0x1F30);
  (0x1F48, 0x1F4D, 1, 0x1F40); (0x1F59, 0x1F5F, 2, 0x1F51); (0x1F68, 0x1F6F, 1, 0x1F60);
  (0x1F88, 0x1F8F, 1, 0x1F80); (0x1F98, 0x1F9F, 1, 0x1F90); (0x1FA8, 0x1FAF, 1, 0x1FA0);
  (0x1FB8, 0x1FB9, 1, 0x1FB0); (0x1FBA, 0x1FBB, 1, 0x1F70); (0x1FBC, 0x1FBC, 1, 0x1FB3);
  (0x1FC8, 0x1FCB, 1, 0x1F72); (0x1FCC, 0x1FCC, 1, 0x1FC3); (0x1FD8, 0x1FD9, 1, 0x1FD0);
  (0x1FDA, 0x1FDB, 1, 0x1F76); (0x1FE8, 0x1FE9, 1, 0x1FE0); (0x1FEA, 0x1FEB, 1, 0x1F7A);
  (0x1FEC, 0x1FEC, 1, 0x1FE5); (0x1FF8, 0x1FF9, 1, 0x1F78); (0x1FFA, 0x1FFB, 1, 0x1F7C);
  (0x1FFC, 0x1FFC, 1, 0x1FF3); (0x2126, 0x2126, 1, 0x3C9); (0x212A, 0x212A, 1, 0x6B);
  (0x212B, 0x212B, 1, 0xE5); (0x2132, 0x2132, 1, 0x214E); (0x2160, 0x216F, 1, 0x2170);
  (0x2183, 0x2183, 1, 0x2184); (0x24B6, 0x24CF, 1, 0x24D0); (0x2C00, 0x2C2F, 1, 0x2C30);
  (0x2C60, 0x2C60, 1, 0x2C61); (0x2C62, 0x2C62, 1, 0x26B); (0x2C63, 0x2C63, 1, 0x1D7D);
  (0x2C64, 0x2C64, 1, 0x27D); (0x2C67, 0x2C6B, 2, 0x2C68); (0x2C6D, 0x2C6D, 1, 0x251);
  (0x2C6E, 0x2C6E, 1, 0x271); (0x2C6F, 0x2C6F, 1, 0x250); (0x2C70, 0x2C70, 1, 0x252);
  (0x2C72, 0x2C72, 1, 0x2C73); (0x2C75, 0x2C75, 1, 0x2C76); (0x2C7E, 0x2C7F, 1, 0x23F);
  (0x2C80, 0x2CE2, 2, 0x2C81); (0x2CEB, 0x2CED, 2, 0x2CEC); (0x2CF2, 0x2CF2, 1, 0x2CF3);
  (0xA640, 0xA66C, 2, 0xA641); (0xA680, 0xA69A, 2, 0xA681); (0xA722, 0xA72E, 2, 0xA723);
  (0xA732, 0xA76E, 2, 0xA733); (0xA779, 0xA77B, 2, 0xA77A); (0xA77D, 0xA77D, 1, 0x1D79);
  (0xA77E, 0xA786, 2, 0xA77F); (0xA78B, 0xA78B, 1, 0xA78C); (0xA78D, 0xA78D, 1, 0x265);
  (0xA790, 0xA792, 2, 0xA791); (0xA796, 0xA7A8, 2, 0xA797); (0xA7AA, 0xA7AA, 1, 0x266);
  (0xA7AB, 0xA7AB, 1, 0x25C); (0xA7AC, 0xA7AC, 1, 0x261); (0xA7AD, 0xA7AD, 1, 0x26C);
  (0xA7AE, 0xA7AE, 1, 0x26A); (0xA7B0, 0xA7B0, 1, 0x29E); (0xA7B1, 0xA7B1, 1, 0x287);
  (0xA7B2, 0xA7B2, 1, 0x29D); (0xA7B3, 0xA7B3, 1, 0xAB53); (0xA7B4, 0xA7C2, 2, 0xA7B5);
  (0xA7C4, 0xA7C4, 1, 0xA794); (0xA7C5, 0xA7C5, 1, 0x282); (0xA7C6, 0xA7C6, 1, 0x1D8E);
  (0xA7C7, 0xA7C9, 2, 0xA7C8); (0xA7D0, 0xA7D0, 1, 0xA7D1); (0xA7D6, 0xA7D8, 2, 0xA7D7);
  (0xA7F5, 0xA7F5, 1, 0xA7F6); (0xFF21, 0xFF3A, 1, 0xFF41); (0x10400, 0x10427, 1, 0x10428);
  (0x104B0, 0x104D3, 1, 0x104D8); (0x10570, 0x1057A, 1, 0x10597); (0x1057C, 0x1058A, 1, 0x105A3);
  (0x1058C, 0x10592, 1, 0x105B3); (0x10594, 0x10595, 1, 0x105BB); (0x10C80, 0x10CB2, 1, 0x10CC0);
  (0x118A0, 0x118BF, 1, 0x118C0); (0x16E40, 0x16E5F, 1, 0x16E60); (0x1E900, 0x1E921, 1, 0x1E922)
].

(** The case-ignorable code points. *)
Definition TABELA_IGNORAVEIS : list (N * N) := [
  (0x27, 0x27); (0x2E, 0x2E); (0x3A, 0x3A); (0x5E, 0x5E); (0x60, 0x60); (0xA8, 0xA8);
  (0xAD, 0xAD); (0xAF, 0xAF); (0xB4, 0xB4); (0xB7, 0xB8); (0x2B0, 0x36F); (0x374, 0x375);
  (0x37A, 0x37A); (0x384, 0x385); (0x387, 0x387); (0x483, 0x489); (0x559, 0x559); (0x55F, 0x55F);
  (0x591, 0x5BD); (0x5BF, 0x5BF); (0x5C1, 0x5C2); (0x5C4, 0x5C5); (0x5C7, 0x5C7); (0x5F4, 0x5F4);
  (0x600, 0x605); (0x610, 0x61A); (0x61C, 0x61C); (0x640, 0x640); (0x64B, 0x65F); (0x670, 0x670);
  (0x6D6, 0x6DD); (0x6DF, 0x6E8); (0x6EA, 0x6ED); (0x70F, 0x70F); (0x711, 0x711); (0x730, 0x74A);
  (0x7A6, 0x7B0); (0x7EB, 0x7F5); (0x7FA, 0x7FA); (0x7FD, 0x7FD); (0x816, 0x82D); (0x859, 0x85B);
  (0x888, 0x888); (0x890, 0x891); (0x898, 0x89F); (0x8C9, 0x902); (0x93A, 0x93A); (0x93C, 0x93C);
  (0x941, 0x948); (0x94D, 0x94D); (0x951, 0x957); (0x962, 0x963); (0x971, 0x971); (0x981, 0x981);
  (0x9BC, 0x9BC); (0x9C1, 0x9C4); (0x9CD, 0x9CD); (0x9E2, 0x9E3); (0x9FE, 0x9FE); (0xA01, 0xA02);
  (0xA3C, 0xA3C); (0xA41, 0xA42); (0xA47, 0xA48); (0xA4B, 0xA4D); (0xA51, 0xA51); (0xA70, 0xA71);
  (0xA75, 0xA75); (0xA81, 0xA82); (0xABC, 0xABC); (0xAC1, 0xAC5); (0xAC7, 0xAC8); (0xACD, 0xACD);
  (0xAE2, 0xAE3); (0xAFA, 0xAFF); (0xB01, 0xB01); (0xB3C, 0xB3C); (0xB3F, 0xB3F); (0xB41, 0xB44);
  (0xB4D, 0xB4D); (0xB55, 0xB56); (0xB62, 0xB63); (0xB82, 0xB82); (0xBC0, 0xBC0); (0xBCD, 0xBCD);
  (0xC00, 0xC00); (0xC04, 0xC04); (0xC3C, 0xC3C); (0xC3E, 0xC40); (0xC46, 0xC48); (0xC4A, 0xC4D);
  (0xC55, 0xC56); (0xC62, 0xC63); (0xC81, 0xC81); (0xCBC, 0xCBC); (0xCBF, 0xCBF); (0xCC6, 0xCC6);
  (0xCCC, 0xCCD); (0xCE2, 0xCE3); (0xD00, 0xD01); (0xD3B, 0xD3C); (0xD41, 0xD44); (0xD4D, 0xD4D);
  (0xD62, 0xD63); (0xD81, 0xD81); (0xDCA, 0xDCA); (0xDD2, 0xDD4); (0xDD6, 0xDD6); (0xE31, 0xE31);
  (0xE34, 0xE3A); (0xE46, 0xE4E); (0xEB1, 0xEB1); (0xEB4, 0xEBC); (0xEC6, 0xEC6); (0xEC8, 0xECD);
  (0xF18, 0xF19); (0xF35, 0xF35); (0xF37, 0xF37); (0xF39, 0xF39); (0xF71, 0xF7E); (0xF80, 0xF84);
  (0xF86, 0xF87); (0xF8D, 0xF97); (0xF99, 0xFBC); (0xFC6, 0xFC6); (0x102D, 0x1030);
  (0x1032, 0x1037); (0x1039, 0x103A); (0x103D, 0x103E); (0x1058, 0x1059); (0x105E, 0x1060);
  (0x1071, 0x1074); (0x1082, 0x1082); (0x1085, 0x1086); (0x108D, 0x108D); (0x109D, 0x109D);
  (0x10FC, 0x10FC); (0x135D, 0x135F); (0x1712, 0x1714); (0x1732, 0x1733); (0x1752, 0x1753);
  (0x1772, 0x1773); (0x17B4, 0x17B5); (0x17B7, 0x17BD); (0x17C6, 0x17C6); (0x17C9, 0x17D3);
  (0x17D7, 0x17D7); (0x17DD, 0x17DD); (0x180B, 0x180F); (0x1843, 0x1843); (0x1885, 0x1886);
  (0x18A9, 0x18A9); (0x1920, 0x1922); (0x1927, 0x1928); (0x1932, 0x1932); (0x1939, 0x193B);
  (0x1A17, 0x1A18); (0x1A1B, 0x1A1B); (0x1A56, 0x1A56); (0x1A58, 0x1A5E); (0x1A60, 0x1A60);
  (0x1A62, 0x1A62); (0x1A65, 0x1A6C); (0x1A73, 0x1A7C); (0x1A7F, 0x1A7F); (0x1AA7, 0x1AA7);
  (0x1AB0, 0x1ACE); (0x1B00, 0x1B03); (0x1B34, 0x1B34); (0x1B36, 0x1B3A); (0x1B3C, 0x1B3C);
  (0x1B42, 0x1B42); (0x1B6B, 0x1B73); (0x1B80, 0x1B81); (0x1BA2, 0x1BA5); (0x1BA8, 0x1BA9);
  (0x1BAB, 0x1BAD); (0x1BE6, 0x1BE6); (0x1BE8, 0x1BE9); (0x1BED, 0x1BED); (0x1BEF, 0x1BF1);
  (0x1C2C, 0x1C33); (0x1C36, 0x1C37); (0x1C78, 0x1C7D); (0x1CD0, 0x1CD2); (0x1CD4, 0x1CE0);
  (0x1CE2, 0x1CE8); (0x1CED, 0x1CED); (0x1CF4, 0x1CF4); (0x1CF8, 0x1CF9); (0x1D2C, 0x1D6A);
  (0x1D78, 0x1D78); (0x1D9B, 0x1DFF); (0x1FBD, 0x1FBD); (0x1FBF, 0x1FC1); (0x1FCD, 0x1FCF);
  (0x1FDD, 0x1FDF); (0x1FED, 0x1FEF); (0x1FFD, 0x1FFE); (0x200B, 0x200F); (0x2018, 0x2019);
  (0x2024, 0x2024); (0x2027, 0x2027); (0x202A, 0x202E); (0x2060, 0x2064); (0x2066, 0x206F);
  (0x2071, 0x2071); (0x207F, 0x207F); (0x2090, 0x209C); (0x20D0, 0x20F0); (0x2C7C, 0x2C7D);
  (0x2CEF, 0x2CF1); (0x2D6F, 0x2D6F); (0x2D7F, 0x2D7F); (0x2DE0, 0x2DFF); (0x2E2F, 0x2E2F);
  (0x3005, 0x3005); (0x302A, 0x302D); (0x3031, 0x3035); (0x303B, 0x303B); (0x3099, 0x309E);
  (0x30FC, 0x30FE); (0xA015, 0xA015); (0xA4F8, 0xA4FD); (0xA60C, 0xA60C); (0xA66F, 0xA672);
  (0xA674, 0xA67D); (0xA67F, 0xA67F); (0xA69C, 0xA69F); (0xA6F0, 0xA6F1); (0xA700, 0xA721);
  (0xA770, 0xA770); (0xA788, 0xA78A); (0xA7F2, 0xA7F4); (0xA7F8, 0xA7F9); (0xA802, 0xA802);
  (0xA806, 0xA806); (0xA80B, 0xA80B); (0xA825, 0xA826); (0xA82C, 0xA82C); (0xA8C4, 0xA8C5);
  (0xA8E0, 0xA8F1); (0xA8FF, 0xA8FF); (0xA926, 0xA92D); (0xA947, 0xA951); (0xA980, 0xA982);
  (0xA9B3, 0xA9B3); (0xA9B6, 0xA9B9); (0xA9BC, 0xA9BD); (0xA9CF, 0xA9CF); (0xA9E5, 0xA9E6);
  (0xAA29, 0xAA2E); (0xAA31, 0xAA32); (0xAA35, 0xAA36); (0xAA43, 0xAA43); (0xAA4C, 0xAA4C);
  (0xAA70, 0xAA70); (0xAA7C, 0xAA7C); (0xAAB0, 0xAAB0); (0xAAB2, 0xAAB4); (0xAAB7, 0xAAB8);
  (0xAABE, 0xAABF); (0xAAC1, 0xAAC1); (0xAADD, 0xAADD); (0xAAEC, 0xAAED); (0xAAF3, 0xAAF4);
  (0xAAF6, 0xAAF6); (0xAB5B, 0xAB5F); (0xAB69, 0xAB6B); (0xABE5, 0xABE5); (0xABE8, 0xABE8);
  (0xABED, 0xABED); (0xFB1E, 0xFB1E); (0xFBB2, 0xFBC2); (0xFE00, 0xFE0F); (0xFE13, 0xFE13);
  (0xFE20, 0xFE2F); (0xFE52, 0xFE52); (0xFE55, 0xFE55); (0xFEFF, 0xFEFF); (0xFF07, 0xFF07);
  (0xFF0E, 0xFF0E); (0xFF1A, 0xFF1A); (0xFF3E, 0xFF3E); (0xFF40, 0xFF40); (0xFF70, 0xFF70);
  (0xFF9E, 0xFF9F); (0xFFE3, 0xFFE3); (0xFFF9, 0xFFFB); (0x101FD, 0x101FD); (0x102E0, 0x102E0);
  (0x10376, 0x1037A); (0x10780, 0x10785); (0x10787, 0x107B0); (0x107B2, 0x107BA);
  (0x10A01, 0x10A03); (0x10A05, 0x10A06); (0x10A0C, 0x10A0F); (0x10A38, 0x10A3A);
  (0x10A3F, 0x10A3F); (0x10AE5, 0x10AE6); (0x10D24, 0x10D27); (0x10EAB, 0x10EAC);
  (0x10F46, 0x10F50); (0x10F82, 0x10F85); (0x11001, 0x11001); (0x11038, 0x11046);
  (0x11070, 0x11070); (0x11073, 0x11074); (0x1107F, 0x11081); (0x110B3, 0x110B6);
  (0x110B9, 0x110BA); (0x110BD, 0x110BD); (0x110C2, 0x110C2); (0x110CD, 0x110CD);
  (0x11100, 0x11102); (0x11127, 0x1112B); (0x1112D, 0x11134); (0x11173, 0x11173);
  (0x11180, 0x11181); (0x111B6, 0x111BE); (0x111C9, 0x111CC); (0x111CF, 0x111CF);
  (0x1122F, 0x11231); (0x11234, 0x11234); (0x11236, 0x11237); (0x1123E, 0x1123E);
  (0x112DF, 0x112DF); (0x112E3, 0x112EA); (0x11300, 0x11301); (0x1133B, 0x1133C);
  (0x11340, 0x11340); (0x11366, 0x1136C); (0x11370, 0x11374); (0x11438, 0x1143F);
  (0x11442, 0x11444); (0x11446, 0x11446); (0x1145E, 0x1145E); (0x114B3, 0x114B8);
  (0x114BA, 0x114BA); (0x114BF, 0x114C0); (0x114C2, 0x114C3); (0x115B2, 0x115B5);
  (0x115BC, 0x115BD); (0x115BF, 0x115C0); (0x115DC, 0x115DD); (0x11633, 0x1163A);
  (0x1163D, 0x1163D); (0x1163F, 0x11640); (0x116AB, 0x116AB); (0x116AD, 0x116AD);
  (0x116B0, 0x116B5); (0x116B7, 0x116B7); (0x1171D, 0x1171F); (0x11722, 0x11725);
  (0x11727, 0x1172B); (0x1182F, 0x11837); (0x11839, 0x1183A); (0x1193B, 0x1193C);
  (0x1193E, 0x1193E); (0x11943, 0x11943); (0x119D4, 0x119D7); (0x119DA, 0x119DB);
  (0x119E0, 0x119E0); (0x11A01, 0x11A0A); (0x11A33, 0x11A38); (0x11A3B, 0x11A3E);
  (0x11A47, 0x11A47); (0x11A51, 0x11A56); (0x11A59, 0x11A5B); (0x11A8A, 0x11A96);
  (0x11A98, 0x11A99); (0x11C30, 0x11C36); (0x11C38, 0x11C3D); (0x11C3F, 0x11C3F);
  (0x11C92, 0x11CA7); (0x11CAA, 0x11CB0); (0x11CB2, 0x11CB3); (0x11CB5, 0x11CB6);
  (0x11D31, 0x11D36); (0x11D3A, 0x11D3A); (0x11D3C, 0x11D3D); (0x11D3F, 0x11D45);
  (0x11D47, 0x11D47); (0x11D90, 0x11D91); (0x11D95, 0x11D95); (0x11D97, 0x11D97);
  (0x11EF3, 0x11EF4); (0x13430, 0x13438); (0x16AF0, 0x16AF4); (0x16B30, 0x16B36);
  (0x16B40, 0x16B43); (0x16F4F, 0x16F4F); (0x16F8F, 0x16F9F); (0x16FE0, 0x16FE1);
  (0x16FE3, 0x16FE4); (0x1AFF0, 0x1AFF3); (0x1AFF5, 0x1AFFB); (0x1AFFD, 0x1AFFE);
  (0x1BC9D, 0x1BC9E); (0x1BCA0, 0x1BCA3); (0x1CF00, 0x1CF2D); (0x1CF30, 0x1CF46);
  (0x1D167, 0x1D169); (0x1D173, 0x1D182); (0x1D185, 0x1D18B); (0x1D1AA, 0x1D1AD);
  (0x1D242, 0x1D244); (0x1DA00, 0x1DA36); (0x1DA3B, 0x1DA6C); (0x1DA75, 0x1DA75);
  (0x1DA84, 0x1DA84); (0x1DA9B, 0x1DA9F); (0x1DAA1, 0x1DAAF); (0x1E000, 0x1E006);
  (0x1E008, 0x1E018); (0x1E01B, 0x1E021); (0x1E023, 0x1E024); (0x1E026, 0x1E02A);
  (0x1E130, 0x1E13D); (0x1E2AE, 0x1E2AE); (0x1E2EC, 0x1E2EF); (0x1E8D0, 0x1E8D6);
  (0x1E944, 0x1E94B); (0x1F3FB, 0x1F3FF); (0xE0001, 0xE0001); (0xE0020, 0xE007F);
  (0xE0100, 0xE01EF)
].

(** The cased code points that are not case-ignorable. *)
Definition TABELA_COM_CAIXA : list (N * N) := [
  (0x41, 0x5A); (0x61, 0x7A); (0xAA, 0xAA); (0xB5, 0xB5); (0xBA, 0xBA); (0xC0, 0xD6);
  (0xD8, 0xF6); (0xF8, 0x1BA); (0x1BC, 0x1BF); (0x1C4, 0x293); (0x295, 0x2AF); (0x370, 0x373);
  (0x376, 0x377); (0x37B, 0x37D); (0x37F, 0x37F); (0x386, 0x386); (0x388, 0x38A); (0x38C, 0x38C);
  (0x38E, 0x3A1); (0x3A3, 0x3F5); (0x3F7, 0x481); (0x48A, 0x52F); (0x531, 0x556); (0x560, 0x588);
  (0x10A0, 0x10C5); (0x10C7, 0x10C7); (0x10CD, 0x10CD); (0x10D0, 0x10FA); (0x10FD, 0x10FF);
  (0x13A0, 0x13F5); (0x13F8, 0x13FD); (0x1C80, 0x1C88); (0x1C90, 0x1CBA); (0x1CBD, 0x1CBF);
  (0x1D00, 0x1D2B); (0x1D6B, 0x1D77); (0x1D79, 0x1D9A); (0x1E00, 0x1F15); (0x1F18, 0x1F1D);
  (0x1F20, 0x1F45); (0x1F48, 0x1F4D); (0x1F50, 0x1F57); (0x1F59, 0x1F59); (0x1F5B, 0x1F5B);
  (0x1F5D, 0x1F5D); (0x1F5F, 0x1F7D); (0x1F80, 0x1FB4); (0x1FB6, 0x1FBC); (0x1FBE, 0x1FBE);
  (0x1FC2, 0x1FC4); (0x1FC6, 0x1FCC); (0x1FD0, 0x1FD3); (0x1FD6, 0x1FDB); (0x1FE0, 0x1FEC);
  (0x1FF2, 0x1FF4); (0x1FF6, 0x1FFC); (0x2102, 0x2102); (0x2107, 0x2107); (0x210A, 0x2113);
  (0x2115, 0x2115); (0x2119, 0x211D); (0x2124, 0x2124); (0x2126, 0x2126); (0x2128, 0x2128);
  (0x212A, 0x212D); (0x212F, 0x2134); (0x2139, 0x2139); (0x213C, 0x213F); (0x2145, 0x2149);
  (0x214E, 0x214E); (0x2160, 0x217F); (0x2183, 0x2184); (0x24B6, 0x24E9); (0x2C00, 0x2C7B);
  (0x2C7E, 0x2CE4); (0x2CEB, 0x2CEE); (0x2CF2, 0x2CF3); (0x2D00, 0x2D25); (0x2D27, 0x2D27);
  (0x2D2D, 0x2D2D); (0xA640, 0xA66D); (0xA680, 0xA69B); (0xA722, 0xA76F); (0xA771, 0xA787);
  (0xA78B, 0xA78E); (0xA790, 0xA7CA); (0xA7D0, 0xA7D1); (0xA7D3, 0xA7D3); (0xA7D5, 0xA7D9);
  (0xA7F5, 0xA7F6); (0xA7FA, 0xA7FA); (0xAB30, 0xAB5A); (0xAB60, 0xAB68); (0xAB70, 0xABBF);
  (0xFB00, 0xFB06); (0xFB13, 0xFB17); (0xFF21, 0xFF3A); (0xFF41, 0xFF5A); (0x10400, 0x1044F);
  (0x104B0, 0x104D3); (0x104D8, 0x104FB); (0x10570, 0x1057A); (0x1057C, 0x1058A);
  (0x1058C, 0x10592); (0x10594, 0x10595); (0x10597, 0x105A1); (0x105A3, 0x105B1);
  (0x105B3, 0x105B9); (0x105BB, 0x105BC); (0x10C80, 0x10CB2); (0x10CC0, 0x10CF2);
  (0x118A0, 0x118DF); (0x16E40, 0x16E7F); (0x1D400, 0x1D454); (0x1D456, 0x1D49C);
  (0x1D49E, 0x1D49F); (0x1D4A2, 0x1D4A2); (0x1D4A5, 0x1D4A6); (0x1D4A9, 0x1D4AC);
  (0x1D4AE, 0x1D4B9); (0x1D4BB, 0x1D4BB); (0x1D4BD, 0x1D4C3); (0x1D4C5, 0x1D505);
  (0x1D507, 0x1D50A); (0x1D50D, 0x1D514); (0x1D516, 0x1D51C); (0x1D51E, 0x1D539);
  (0x1D53B, 0x1D53E); (0x1D540, 0x1D544); (0x1D546, 0x1D546); (0x1D54A, 0x1D550);
  (0x1D552, 0x1D6A5); (0x1D6A8, 0x1D6C0); (0x1D6C2, 0x1D6DA); (0x1D6DC, 0x1D6FA);
  (0x1D6FC, 0x1D714); (0x1D716, 0x1D734); (0x1D736, 0x1D74E); (0x1D750, 0x1D76E);
  (0x1D770, 0x1D788); (0x1D78A, 0x1D7A8); (0x1D7AA, 0x1D7C2); (0x1D7C4, 0x1D7CB);
  (0x1DF00, 0x1DF09); (0x1DF0B, 0x1DF1E); (0x1E900, 0x1E943); (0x1F130, 0x1F149);
  (0x1F150, 0x1F169); (0x1F170, 0x1F189)
].

Definition em_faixas (tabela : list (N * N)) (c : N) : bool :=
  existsb (fun faixa => (faixa.1 <=? c) && (c <=? faixa.2)) tabela.

(** [str.isdigit], on one character. *)
Definition isdigit (c : N) : bool := em_faixas TABELA_DIGITOS c.

(** [str.isspace], on one character. *)
Definition isspace (c : N) : bool := em_faixas TABELA_ESPACOS c.

Definition na_sequencia (c : N) (s : N * N * N * N) : bool :=
  let '(primeiro, ultimo, salto, _) := s in
  (primeiro <=? c) && (c <=? ultimo) && ((c - primeiro) mod salto =? 0).

(** The lower-case form of one character, U+03A3 apart. Only U+0130
    has a form of more than one code point. *)
Definition lower_char (c : N) : str :=
  if c =? 0x130 then [0x69; 0x307]
  else match find (na_sequencia c) TABELA_MINUSCULAS with
       | Some (primeiro, _, _, imagem) => [imagem + (c - primeiro)]
       | None => [c]
       end.

Fixpoint primeiro_nao_ignoravel (s : str) : option N :=
  match s with
  | [] => None
  | c :: s' =>
    if em_faixas TABELA_IGNORAVEIS c then primeiro_nao_ignoravel s' else Some c
  end.

(** CPython's rule for U+03A3 (capital sigma): it becomes the final
    sigma U+03C2 when the nearest character before it that is not
    case-ignorable is cased and the nearest such character after it, if
    any, is not; otherwise U+03C3. [antes] is the text before the sigma,
    nearest character first. *)
Definition sigma_final (antes depois : str) : bool :=
  match primeiro_nao_ignoravel antes with
  | Some c =>
    em_faixas TABELA_COM_CAIXA c &&
    match primeiro_nao_ignoravel depois with
    | Some c' => negb (em_faixas TABELA_COM_CAIXA c')
    | None => true
    end
  | None => false
  end.

Fixpoint lower_desde (antes s : str) : str :=
  match s with
  | [] => []
  | c :: s' =>
    (if c =? 0x3A3 then [if sigma_final antes s' then 0x3C2 else 0x3C3]
     else lower_char c) ++ lower_desde (c :: antes) s'
  end.

(** [s.lower()]. *)
Definition lower (s : str) : str := lower_desde [] s.

Fixpoint lstrip_chars (p : N -> bool) (s : str) : str :=
  match s with
  | c :: s' => if p c then lstrip_chars p s' else s
  | [] => []
  end.

(** [s.strip(chars)], the characters to strip given as a predicate. *)
Definition strip_chars (p : N -> bool) (s : str) : str :=
  rev (lstrip_chars p (rev (lstrip_chars p s))).

(** [s.strip()]. *)
Definition strip (s : str) : str := strip_chars isspace s.

(** [s.startswith(p)]. *)
Fixpoint startswith (p s : str) : bool :=
  match p, s with
  | [], _ => true
  | a :: p', b :: s' => (a =? b) && startswith p' s'
  | _ :: _, [] => false
  end.

(** [sub in s]. *)
Fixpoint contem (sub s : str) : bool :=
  startswith sub s ||
  match s with
  | [] => false
  | _ :: s' => contem sub s'
  end.

(** [a == b]. *)
Fixpoint igual (a b : str) : bool :=
  match a, b with
  | [], [] => true
  | x :: a', y :: b' => (x =? y) && igual a' b'
  | _, _ => false
  end.

(** [s[:n]]. *)
Definition ate (n : nat) (s : str) : str := take n s.

(** [s[n:]]. *)
Definition desde (n : nat) (s : str) : str := drop n s.

(** Truth value of a string. *)
Definition nao_vazio (s : str) : bool :=
  match s with [] => false | _ => true end.

Definition limpar_cep (cep : str) : str :=
  filter (fun c => isdigit c = true) cep.

Definition formatar_cep (cep : str) : str :=
  let cep_limpo := limpar_cep cep in
  if (length cep_limpo =? 8)%nat
  then ate 5 cep_limpo ++ utf8 "-" ++ desde 5 cep_limpo
  else cep.

Arguments utf8 : simpl never.
Arguments isdigit : simpl never.
Arguments isspace : simpl never.
Arguments lower_char : simpl never.
Arguments lower : simpl never.
Arguments strip_chars : simpl never.
Arguments strip : simpl never.
Arguments limpar_cep : simpl never.
Arguments formatar_cep : simpl never.
Arguments ate : simpl never.
Arguments desde : simpl never.

Close Scope N_scope.
Open Scope R_scope.

(** ** Business constants *)

Definition CEP_ORIGEM : str := utf8 "17017-337".
Definition TAXA_POR_KM : R := 16 / 10.
Definition FRANQUIA_KM_IDA : R := 30.
Definition FRANQUIA_KM_TOTAL : R := FRANQUIA_KM_IDA * 2.

(** ** The fragment of Python's [math] and built-ins used by the service *)

(** Exceptions, classified by the message the code builds
    (or by the library that raises). *)
Inductive excecao : Type :=
  | CepNaoEncontrado (cep : str)
  | CepInvalido (cep : str)
  | CoordenadasIndisponiveis (cep : str)
  | EnderecoNaoEncontrado (endereco : str)
  | ErroRequisicao
  | KeyError (chave : string)
  | TypeError
  | AttributeError
  | ValueError.

(** [math.sin] and [math.cos], as the platform computes them. *)
Class Libm : Type := {
  py_sin : R -> R;
  py_cos : R -> R
}.

(** [math.sqrt]: raises [ValueError] below zero. *)
Definition py_sqrt (x : R) : excecao + R :=
  if Rlt_dec x 0 then inl ValueError else inr (sqrt x).

(** [math.radians]. *)
Definition radians (x : R) : R := x * PI / 180.

(** [math.atan2 y x], the angle of the point [(x, y)] in (-PI, PI]. *)
Definition atan2 (y x : R) : R :=
  if Rlt_dec 0 x then atan (y / x)
  else if Rlt_dec x 0 then
    (if Rlt_dec y 0 then atan (y / x) - PI else atan (y / x) + PI)
  else if Rlt_dec 0 y then PI / 2
  else if Rlt_dec y 0 then - (PI / 2)
  else 0.

(** [round(x)] to the nearest integer, ties to even. *)
Definition round_half_even (x : R) : Z :=
  let f := (up x - 1)%Z in
  let r := x - IZR f in
  if Rlt_dec r (1 / 2) then f
  else if Rlt_dec (1 / 2) r then (f + 1)%Z
  else if Z.even f then f else (f + 1)%Z.

(** [round(x, ndigits)]. *)
Definition py_round (x : R) (ndigits : nat) : R :=
  IZR (round_half_even (x * 10 ^ ndigits)) / 10 ^ ndigits.

(** ** Data model *)

(** The dictionary built by the two resolvers. The key ['cep'] is only
    set by the address path. *)
Record Coordenada : Type := mkCoordenada {
  lat : R;
  lon : R;
  endereco : str;
  cidade : str;
  uf : str;
  cep : option str
}.

Inductive Metodo : Type := osrm | haversine_ajustado.

Record Estimativa : Type := mkEstimativa {
  distancia_metros : R;
  duracao_segundos : R;
  metodo : Metodo
}.

(** ** Great-circle fallback: [calcular_distancia_haversine] *)

Definition RAIO_TERRA : R := 6371000.

(** The quantity [a] of the source. *)
Definition haversine_a `{!Libm} (coord_origem coord_destino : Coordenada) : R :=
  let lat1 := radians (lat coord_origem) in
  let lon1 := radians (lon coord_origem) in
  let lat2 := radians (lat coord_destino) in
  let lon2 := radians (lon coord_destino) in
  let dlat := lat2 - lat1 in
  let dlon := lon2 - lon1 in
  py_sin (dlat / 2) ^ 2 + py_cos lat1 * py_cos lat2 * py_sin (dlon / 2) ^ 2.

Definition calcular_distancia_haversine `{!Libm}
    (coord_origem coord_destino : Coordenada) : excecao + Estimativa :=
  let a := haversine_a coord_origem coord_destino in
  match py_sqrt a with
  | inl e => inl e
  | inr s1 =>
    match py_sqrt (1 - a) with
    | inl e => inl e
    | inr s2 =>
      let c := 2 * atan2 s1 s2 in
      let distancia_linha_reta := RAIO_TERRA * c in
      let distancia_estimada := distancia_linha_reta * (13 / 10) in
      let tempo_segundos := (distancia_estimada / 1000) * 3600 / 80 in
      inr {| distancia_metros := distancia_estimada;
             duracao_segundos := tempo_segundos;
             metodo := haversine_ajustado |}
    end
  end.

(** ** The franchise rule of [calcular_taxa_por_endereco] and
       [calcular_taxa_deslocamento] (the two copies are identical) *)

(** [(km_excedente, valor_taxa)] before rounding. *)
Definition calcular_taxa (distancia_ida_km : R) : R * R :=
  if Rlt_dec FRANQUIA_KM_IDA distancia_ida_km then
    let distancia_total_km := distancia_ida_km * 2 in
    let km_excedente := distancia_total_km - FRANQUIA_KM_TOTAL in
    let valor_taxa := km_excedente * TAXA_POR_KM in
    (km_excedente, valor_taxa)
  else (0, 0).

(** ** Upstream services *)

(** What ViaCEP answers: the error flag, or the quadruple
    street / neighbourhood / city / region. *)
Record DadosCep : Type := mkDadosCep {
  logradouro : str;
  bairro : str;
  localidade : str;
  dados_uf : str
}.

Inductive CorpoViaCep : Type :=
  | ViaCepErro
  | ViaCepDados (dados_cep : DadosCep).

(** The ['address'] component of a Nominatim candidate. *)
Record Address : Type := mkAddress {
  city : option str;
  town : option str;
  municipality : option str;
  village : option str;
  county : option str;
  state : option str;
  postcode : option str
}.

(** One Nominatim candidate. A field is [None] when its key is missing. *)
Record Candidato : Type := mkCandidato {
  cand_lat : option R;
  cand_lon : option R;
  display_name : option str;
  address : option Address
}.

Record Rota : Type := mkRota {
  distance : option R;
  duration : option R
}.

Record CorpoOsrm : Type := mkCorpoOsrm {
  code : option str;
  routes : option (list Rota)
}.

(** An HTTP response. [json] is [None] when [response.json()] raises. *)
Record Resposta (A : Type) : Type := mkResposta {
  status_code : Z;
  json : option A
}.
Arguments mkResposta {A} _ _.
Arguments status_code {A} _.
Arguments json {A} _.

(** The requests the service issues. *)
Inductive Pedido : Type :=
  | PedidoViaCep (cep_limpo : str)
  | PedidoNominatim (q : str) (addressdetails : bool)
  | PedidoOsrm (lon1 lat1 lon2 lat2 : R).

(** The outside world: the three services and the clock. A service
    answers [None] when [requests.get] raises (no connection, timeout);
    answering may change the world. *)
Class Servicos (Mundo : Type) : Type := {
  viacep : str -> Mundo -> option (Resposta CorpoViaCep) * Mundo;
  nominatim : str -> bool -> Mundo -> option (Resposta (list Candidato)) * Mundo;
  router_osrm : R -> R -> R -> R -> Mundo -> option (Resposta CorpoOsrm) * Mundo;
  agora : Mundo -> str
}.

(** ** State and the exception monad *)

Record Estado (Mundo : Type) : Type := mkEstado {
  CACHE_COORDENADAS : gmap str Coordenada;
  mundo : Mundo;
  pedidos : list Pedido
}.
Arguments mkEstado {Mundo} _ _ _.
Arguments CACHE_COORDENADAS {Mundo} _.
Arguments mundo {Mundo} _.
Arguments pedidos {Mundo} _.

Definition M (Mundo A : Type) : Type :=
  Estado Mundo -> (excecao + A) * Estado Mundo.

#[global] Instance M_ret {Mundo} : MRet (M Mundo) :=
  fun A (x : A) st => (inr x, st).

#[global] Instance M_bind {Mundo} : MBind (M Mundo) :=
  fun A B (f : A -> M Mundo B) (m : M Mundo A) st =>
    match m st with
    | (inr x, st') => f x st'
    | (inl e, st') => (inl e, st')
    end.

Definition raise {Mundo A} (e : excecao) : M Mundo A :=
  fun st => (inl e, st).

Definition try_except {Mundo A} (m : M Mundo A) (h : excecao -> M Mundo A) : M Mundo A :=
  fun st =>
    match m st with
    | (inl e, st') => h e st'
    | r => r
    end.

Definition lift {Mundo A} (x : excecao + A) : M Mundo A :=
  fun st => (x, st).

(** [d[k]] on a key that may be missing. *)
Definition getitem {Mundo A} (k : string) (o : option A) : M Mundo A :=
  match o with
  | Some x => mret x
  | None => raise (KeyError k)
  end.

Definition cache_get {Mundo} (k : str) : M Mundo (option Coordenada) :=
  fun st => (inr (CACHE_COORDENADAS st !! k), st).

Definition cache_set {Mundo} (k : str) (v : Coordenada) : M Mundo unit :=
  fun st =>
    (inr tt, mkEstado (<[k := v]> (CACHE_COORDENADAS st)) (mundo st) (pedidos st)).

(** [requests.get]: the request is logged, the world moves on. *)
Definition requests_get {Mundo A} (p : Pedido)
    (servico : Mundo -> option (Resposta A) * Mundo) : M Mundo (Resposta A) :=
  fun st =>
    let '(r, w) := servico (mundo st) in
    let st' := mkEstado (CACHE_COORDENADAS st) w (pedidos st ++ [p]) in
    match r with
    | Some response => (inr response, st')
    | None => (inl ErroRequisicao, st')
    end.

(** [response.json()]. *)
Definition response_json {Mundo A} (response : Resposta A) : M Mundo A :=
  match json response with
  | Some x => mret x
  | None => raise ValueError
  end.

(** ** Results of a fee calculation *)

Record Origem : Type := mkOrigem {
  origem_cep : str;
  origem_endereco : str;
  origem_lat : R;
  origem_lon : R
}.

(** The ["destino"] object differs between the two calculators. *)
Inductive Destino : Type :=
  | DestinoCep (cep endereco : str) (lat lon : R)
  | DestinoEndereco (endereco_informado endereco_encontrado cidade uf cep : str)
      (lat lon : R).

Record Distancia : Type := mkDistancia {
  ida_km : R;
  ida_volta_km : R;
  tempo_estimado_ida_minutos : R;
  metodo_calculo : Metodo
}.

Record Calculo : Type := mkCalculo {
  franquia_km_ida : R;
  franquia_km_total : R;
  km_excedente : R;
  taxa_por_km : R;
  valor_taxa : R
}.

Record Sucesso : Type := mkSucesso {
  origem : Origem;
  destino : Destino;
  distancia : Distancia;
  calculo : Calculo;
  timestamp : str
}.

(** ["status": "sucesso"] with its payload, or ["status": "erro"] with
    ["codigo"] and the exception whose text is the ["mensagem"]. *)
Inductive ResultadoTaxa : Type :=
  | sucesso (r : Sucesso)
  | erro (codigo : string) (mensagem : excecao).

(** The part of the payload both calculators build in the same way. *)
Definition montar_distancia (resultado_distancia : Estimativa) : Distancia :=
  let distancia_ida_km := distancia_metros resultado_distancia / 1000 in
  let duracao_minutos := duracao_segundos resultado_distancia / 60 in
  {| ida_km := py_round distancia_ida_km 2;
     ida_volta_km := py_round (distancia_ida_km * 2) 2;
     tempo_estimado_ida_minutos := py_round duracao_minutos 0;
     metodo_calculo := metodo resultado_distancia |}.

Definition montar_calculo (resultado_distancia : Estimativa) : Calculo :=
  let distancia_ida_km := distancia_metros resultado_distancia / 1000 in
  let taxa := calcular_taxa distancia_ida_km in
  {| franquia_km_ida := FRANQUIA_KM_IDA;
     franquia_km_total := FRANQUIA_KM_TOTAL;
     km_excedente := py_round (fst taxa) 2;
     taxa_por_km := TAXA_POR_KM;
     valor_taxa := py_round (snd taxa) 2 |}.

(** The fallback table of [obter_coordenadas_viacep]. *)
Definition coordenadas_cidades : gmap str (R * R) :=
  list_to_map [
    (utf8 "17", (-22.3155, -49.0708));
    (utf8 "17017", (-22.3155, -49.0708));
    (utf8 "17015", (-22.3155, -49.0708));
    (utf8 "17120", (-22.2189, -49.0478));
    (utf8 "17500", (-22.4249, -49.9461));
    (utf8 "17600", (-22.2208, -50.1761));
    (utf8 "17800", (-21.6833, -51.1333));
    (utf8 "18600", (-22.8858, -48.4452));
    (utf8 "01310", (-23.5489, -46.6388));
    (utf8 "01000", (-23.5505, -46.6333));
    (utf8 "80000", (-25.4284, -49.2733));
    (utf8 "30000", (-19.9167, -43.9345))
  ].

(** [a or b] on an optional string. *)
Definition ou (a : option str) (b : str) : str :=
  match a with
  | Some s => if nao_vazio s then s else b
  | None => b
  end.

Definition address_vazio : Address :=
  mkAddress None None None None None None None.

(** The two queries built for a registry record: the street-level
    address, and city with region. *)
Definition endereco_rua (dados_cep : DadosCep) : str :=
  logradouro dados_cep ++ utf8 ", " ++ bairro dados_cep ++ utf8 ", " ++
  localidade dados_cep ++ utf8 ", " ++ dados_uf dados_cep ++ utf8 ", Brazil".

Definition endereco_cidade (dados_cep : DadosCep) : str :=
  localidade dados_cep ++ utf8 ", " ++ dados_uf dados_cep ++ utf8 ", Brazil".

(** [endereco_busca] of [obter_coordenadas_viacep]: the street-level address
    if the record has a street ([dados_cep.get('logradouro')] is truthy),
    city and region otherwise. *)
Definition primeira_consulta (dados_cep : DadosCep) : str :=
  if nao_vazio (logradouro dados_cep)
  then endereco_rua dados_cep
  else endereco_cidade dados_cep.

(** The characters of [', '], the argument of [strip] in the resolver. *)
Definition virgula_ou_espaco (c : N) : bool :=
  ((c =? 44) || (c =? 32))%N.

Section Servico.
Context {Mundo : Type} {servicos : Servicos Mundo} {libm : Libm}.

(** ** Coordinate resolver *)

Definition obter_coordenadas_viacep (cep : str) : M Mundo Coordenada :=
  let cep_limpo := limpar_cep cep in
  em_cache ← cache_get cep_limpo;
  match em_cache with
  | Some resultado => mret resultado
  | None =>
    response ← requests_get (PedidoViaCep cep_limpo) (viacep cep_limpo);
    if negb (status_code response =? 200)%Z then raise (CepNaoEncontrado cep) else
    corpo ← response_json response;
    match corpo with
    | ViaCepErro => raise (CepInvalido cep)
    | ViaCepDados dados_cep =>
      let endereco_busca := primeira_consulta dados_cep in
      response ← requests_get (PedidoNominatim endereco_busca false)
                              (nominatim endereco_busca false);
      candidatos ← (if (status_code response =? 200)%Z
                    then response_json response else mret []);
      match candidatos with
      | coords_data :: _ =>
        lat ← getitem "lat" (cand_lat coords_data);
        lon ← getitem "lon" (cand_lon coords_data);
        let resultado :=
          {| lat := lat; lon := lon;
             endereco :=
               strip_chars virgula_ou_espaco
                 (logradouro dados_cep ++ utf8 ", " ++ bairro dados_cep ++ utf8 ", " ++
                  localidade dados_cep ++ utf8 "-" ++ dados_uf dados_cep);
             cidade := localidade dados_cep;
             uf := dados_uf dados_cep;
             cep := None |} in
        _ ← cache_set cep_limpo resultado;
        mret resultado
      | [] =>
        let q := endereco_cidade dados_cep in
        response ← requests_get (PedidoNominatim q false) (nominatim q false);
        candidatos ← (if (status_code response =? 200)%Z
                      then response_json response else mret []);
        match candidatos with
        | coords_data :: _ =>
          lat ← getitem "lat" (cand_lat coords_data);
          lon ← getitem "lon" (cand_lon coords_data);
          let resultado :=
            {| lat := lat; lon := lon;
               endereco := localidade dados_cep ++ utf8 "-" ++ dados_uf dados_cep;
               cidade := localidade dados_cep;
               uf := dados_uf dados_cep;
               cep := None |} in
          _ ← cache_set cep_limpo resultado;
          mret resultado
        | [] =>
          let prefixo5 := ate 5 cep_limpo in
          coords ←
            match coordenadas_cidades !! prefixo5 with
            | Some coords => mret coords
            | None =>
              match coordenadas_cidades !! ate 2 cep_limpo with
              | Some coords => mret coords
              | None => raise (CoordenadasIndisponiveis cep)
              end
            end;
          let resultado :=
            {| lat := fst coords; lon := snd coords;
               endereco := localidade dados_cep ++ utf8 "-" ++ dados_uf dados_cep
                           ++ utf8 " (aproximado)";
               cidade := localidade dados_cep;
               uf := dados_uf dados_cep;
               cep := None |} in
          _ ← cache_set cep_limpo resultado;
          mret resultado
        end
      end
    end
  end.

Definition obter_coordenadas_por_endereco (endereco_completo : str)
    : M Mundo Coordenada :=
  let cache_key := utf8 "endereco_" ++ strip (lower endereco_completo) in
  em_cache ← cache_get cache_key;
  match em_cache with
  | Some resultado => mret resultado
  | None =>
    let endereco_busca :=
      if negb (contem (utf8 "brazil") (lower endereco_completo)) &&
         negb (contem (utf8 "brasil") (lower endereco_completo))
      then endereco_completo ++ utf8 ", Brazil"
      else endereco_completo in
    response ← requests_get (PedidoNominatim endereco_busca true)
                            (nominatim endereco_busca true);
    if negb (status_code response =? 200)%Z
    then raise (EnderecoNaoEncontrado endereco_completo) else
    candidatos ← response_json response;
    match candidatos with
    | [] => raise (EnderecoNaoEncontrado endereco_completo)
    | resultado_busca :: _ =>
      let address := default address_vazio (address resultado_busca) in
      let cidade :=
        ou (city address) (ou (town address) (ou (municipality address)
          (ou (village address) (ou (county address) [])))) in
      let uf := default [] (state address) in
      let cep := default (utf8 "N/A") (postcode address) in
      lat ← getitem "lat" (cand_lat resultado_busca);
      lon ← getitem "lon" (cand_lon resultado_busca);
      let resultado :=
        {| lat := lat; lon := lon;
           endereco := default endereco_completo (display_name resultado_busca);
           cidade := cidade;
           uf := uf;
           cep := Some cep |} in
      _ ← cache_set cache_key resultado;
      mret resultado
    end
  end.

(** ** Distance estimator *)

Definition calcular_distancia_osrm (coord_origem coord_destino : Coordenada)
    : M Mundo Estimativa :=
  try_except
    (response ←
       requests_get
         (PedidoOsrm (lon coord_origem) (lat coord_origem)
                     (lon coord_destino) (lat coord_destino))
         (router_osrm (lon coord_origem) (lat coord_origem)
                      (lon coord_destino) (lat coord_destino));
     rota ←
       (if (status_code response =? 200)%Z then
          data ← response_json response;
          c ← getitem "code" (code data);
          if igual c (utf8 "Ok") then
            rs ← getitem "routes" (routes data);
            match rs with
            | route :: _ =>
              _ ← getitem "distance" (distance route);
              d ← getitem "distance" (distance route);
              t ← getitem "duration" (duration route);
              mret (Some (mkEstimativa d t osrm))
            | [] => mret None
            end
          else mret None
        else mret None);
     match rota with
     | Some estimativa => mret estimativa
     | None => lift (calcular_distancia_haversine coord_origem coord_destino)
     end)
    (fun _ => lift (calcular_distancia_haversine coord_origem coord_destino)).

(** ** Fee calculator *)

Definition ler_relogio : M Mundo str :=
  fun st => (inr (agora (mundo st)), st).

(** The boundary [try ... except Exception] of the two calculators. *)
Definition fronteira (m : M Mundo Sucesso) (st : Estado Mundo)
    : ResultadoTaxa * Estado Mundo :=
  match m st with
  | (inr r, st') => (sucesso r, st')
  | (inl e, st') => (erro "ERRO_CALCULO" e, st')
  end.

Definition calcular_taxa_por_endereco (endereco_destino : str)
    : Estado Mundo -> ResultadoTaxa * Estado Mundo :=
  fronteira
    (coord_origem ← obter_coordenadas_viacep CEP_ORIGEM;
     coord_destino ← obter_coordenadas_por_endereco endereco_destino;
     resultado_distancia ← calcular_distancia_osrm coord_origem coord_destino;
     cep_destino ← getitem "cep" (cep coord_destino);
     t ← ler_relogio;
     mret {| origem := mkOrigem CEP_ORIGEM (endereco coord_origem)
                                (lat coord_origem) (lon coord_origem);
             destino := DestinoEndereco endereco_destino (endereco coord_destino)
                          (cidade coord_destino) (uf coord_destino) cep_destino
                          (lat coord_destino) (lon coord_destino);
             distancia := montar_distancia resultado_distancia;
             calculo := montar_calculo resultado_distancia;
             timestamp := t |}).

Definition calcular_taxa_deslocamento (cep_destino : str)
    : Estado Mundo -> ResultadoTaxa * Estado Mundo :=
  fronteira
    (let cep_destino_formatado := formatar_cep cep_destino in
     coord_origem ← obter_coordenadas_viacep CEP_ORIGEM;
     coord_destino ← obter_coordenadas_viacep cep_destino;
     resultado_distancia ← calcular_distancia_osrm coord_origem coord_destino;
     t ← ler_relogio;
     mret {| origem := mkOrigem CEP_ORIGEM (endereco coord_origem)
                                (lat coord_origem) (lon coord_origem);
             destino := DestinoCep cep_destino_formatado (endereco coord_destino)
                          (lat coord_destino) (lon coord_destino);
             distancia := montar_distancia resultado_distancia;
             calculo := montar_calculo resultado_distancia;
             timestamp := t |}).

End Servico.

(** ** HTTP endpoints *)

(** A value of the request's JSON object: a string, or a scalar that is
    not a string (number, boolean, null). *)
Inductive Valor : Type :=
  | VStr (s : str)
  | VOutro.

(** The JSON body of a response: an error envelope built by the endpoint
    itself (with the offending postal code where the message quotes it),
    or the calculator's result. *)
Inductive CorpoResposta : Type :=
  | JsonErro (codigo : string) (detalhe : option str)
  | JsonResultado (resultado : ResultadoTaxa).

(** The tail shared by the endpoints: 400 on ["status": "erro"], else 200. *)
Definition responder {Mundo} (r : ResultadoTaxa * Estado Mundo)
    : (CorpoResposta * Z) * Estado Mundo :=
  match r with
  | (erro codigo mensagem, st) => ((JsonResultado (erro codigo mensagem), 400%Z), st)
  | (sucesso s, st) => ((JsonResultado (sucesso s), 200%Z), st)
  end.

Definition ERRO_SERVIDOR : CorpoResposta * Z :=
  (JsonErro "ERRO_SERVIDOR" None, 500%Z).

Section Rotas.
Context {Mundo : Type} {servicos : Servicos Mundo} {libm : Libm}.

(** [POST /calcular]; [data] is [request.get_json()]. On a value that is
    not a string, [.strip()] raises [AttributeError] and [limpar_cep] raises
    [TypeError]; the endpoint's own [except] turns both into a 500. *)
Definition calcular (data : option (gmap string Valor)) (st : Estado Mundo)
    : (CorpoResposta * Z) * Estado Mundo :=
  match data with
  | None => ((JsonErro "DADOS_OBRIGATORIOS" None, 400%Z), st)
  | Some data =>
    if (size data =? 0)%nat then ((JsonErro "DADOS_OBRIGATORIOS" None, 400%Z), st)
    else
      match data !! "endereco" with
      | Some (VStr s) =>
        let endereco := strip s in
        if negb (nao_vazio endereco)
        then ((JsonErro "ENDERECO_VAZIO" None, 400%Z), st)
        else responder (calcular_taxa_por_endereco endereco st)
      | Some VOutro => (ERRO_SERVIDOR, st)
      | None =>
        match data !! "cep" with
        | Some (VStr cep) =>
          let cep_limpo := limpar_cep cep in
          if negb (length cep_limpo =? 8)%nat
          then ((JsonErro "CEP_INVALIDO" (Some cep), 400%Z), st)
          else responder (calcular_taxa_deslocamento cep st)
        | Some VOutro => (ERRO_SERVIDOR, st)
        | None => ((JsonErro "PARAMETRO_INVALIDO" None, 400%Z), st)
        end
      end
  end.

(** [GET /teste/<cep>]. *)
Definition teste (cep : str) (st : Estado Mundo)
    : (CorpoResposta * Z) * Estado Mundo :=
  responder (calcular_taxa_deslocamento cep st).

(** [GET /teste-endereco/<path:endereco>]. *)
Definition teste_endereco (endereco : str) (st : Estado Mundo)
    : (CorpoResposta * Z) * Estado Mundo :=
  responder (calcular_taxa_por_endereco endereco st).

(** [POST /limpar-cache]: the number of entries removed, and the state
    with an empty cache. *)
Definition limpar_cache (st : Estado Mundo) : nat * Estado Mundo :=
  let tamanho_anterior := size (CACHE_COORDENADAS st) in
  (tamanho_anterior, mkEstado ∅ (mundo st) (pedidos st)).

(** ** The resolver seen as one operation *)

Inductive Identificador : Type :=
  | PorCep (cep : str)
  | PorEndereco (endereco : str).

(** The key under which an identifier is cached. *)
Definition chave (i : Identificador) : str :=
  match i with
  | PorCep cep => limpar_cep cep
  | PorEndereco e => utf8 "endereco_" ++ strip (lower e)
  end.

Definition resolver (i : Identificador) : M Mundo Coordenada :=
  match i with
  | PorCep cep => obter_coordenadas_viacep cep
  | PorEndereco e => obter_coordenadas_por_endereco e
  end.

(** Calls that may happen between two resolutions: everything the
    service does except clearing the cache. *)
Inductive Chamada : Type :=
  | ChamadaResolver (i : Identificador)
  | ChamadaCalcular (data : option (gmap string Valor))
  | ChamadaTeste (cep : str)
  | ChamadaTesteEndereco (endereco : str).

Definition executar (c : Chamada) (st : Estado Mundo) : Estado Mundo :=
  match c with
  | ChamadaResolver i => (resolver i st).2
  | ChamadaCalcular data => (calcular data st).2
  | ChamadaTeste cep => (teste cep st).2
  | ChamadaTesteEndereco e => (teste_endereco e st).2
  end.

Definition executar_todas (cs : list Chamada) (st : Estado Mundo) : Estado Mundo :=
  foldl (fun st c => executar c st) st cs.

End Rotas.

(** ** The fallback as the specification words it *)

(** Haversine of an angle. *)
Definition hav (theta : R) : R := sin (theta / 2) ^ 2.

(** Great-circle distance by the law of haversines, in metres, on a sphere
    of radius 6 371 000 m; coordinates in degrees. *)
Definition distancia_grande_circulo (coord_origem coord_destino : Coordenada) : R :=
  let phi1 := lat coord_origem * PI / 180 in
  let phi2 := lat coord_destino * PI / 180 in
  let lam1 := lon coord_origem * PI / 180 in
  let lam2 := lon coord_destino * PI / 180 in
  2 * 6371000 *
  asin (sqrt (hav (phi2 - phi1) + cos phi1 * cos phi2 * hav (lam2 - lam1))).

(** 80 km/h in metres per second. *)
Definition VELOCIDADE_MEDIA : R := 80 * 1000 / 3600.

Definition estimativa_reserva (coord_origem coord_destino : Coordenada) : Estimativa :=
  let d := distancia_grande_circulo coord_origem coord_destino * (13 / 10) in
  {| distancia_metros := d;
     duracao_segundos := d / VELOCIDADE_MEDIA;
     metodo := haversine_ajustado |}.

(** The estimate the fallback builds from the quantity [a], when both
    square roots are defined: the central angle is [2 * asin (sqrt a)]. *)
Definition estimativa_de (a : R) : Estimativa :=
  let d := RAIO_TERRA * (2 * asin (sqrt a)) * (13 / 10) in
  {| distancia_metros := d;
     duracao_segundos := d / 1000 * 3600 / 80;
     metodo := haversine_ajustado |}.

(** The routing query fails: the request raises, the status is not 200,
    the body is not JSON, the code is missing or not ["Ok"], the route
    list is missing or empty, or the first route lacks a field. *)
Inductive consulta_falhou : option (Resposta CorpoOsrm) -> Prop :=
  | falhou_requisicao :
      consulta_falhou None
  | falhou_status r :
      status_code r <> 200%Z -> consulta_falhou (Some r)
  | falhou_json r :
      json r = None -> consulta_falhou (Some r)
  | falhou_code r data :
      json r = Some data -> code data <> Some (utf8 "Ok") -> consulta_falhou (Some r)
  | falhou_sem_rotas r data :
      json r = Some data -> routes data = None \/ routes data = Some [] ->
      consulta_falhou (Some r)
  | falhou_rota_incompleta r data route rs :
      json r = Some data -> routes data = Some (route :: rs) ->
      distance route = None \/ duration route = None ->
      consulta_falhou (Some r).

(** The routing query succeeds with a first route of distance [d] and
    duration [t]. *)
Definition consulta_deu_rota (o : option (Resposta CorpoOsrm)) (d t : R) : Prop :=
  exists r data route rs,
    o = Some r /\ status_code r = 200%Z /\ json r = Some data /\
    code data = Some (utf8 "Ok") /\ routes data = Some (route :: rs) /\
    distance route = Some d /\ duration route = Some t.

(** ** The postal-code chain as the specification words it *)

(** The geocoder gave no result: a status other than 200, or an empty list. *)
Definition sem_resultado (r : Resposta (list Candidato)) : Prop :=
  status_code r <> 200%Z \/ json r = Some [].

(** The geocoder's first candidate is the point [(la, lo)]. *)
Definition primeiro_resultado (r : Resposta (list Candidato)) (la lo : R) : Prop :=
  status_code r = 200%Z /\
  exists c rest, json r = Some (c :: rest) /\ cand_lat c = Some la /\ cand_lon c = Some lo.

(** The static table, 5-digit prefix first, then 2-digit prefix. *)
Definition tabela_por_prefixo (cep_limpo : str) : option (R * R) :=
  match coordenadas_cidades !! ate 5 cep_limpo with
  | Some coords => Some coords
  | None => coordenadas_cidades !! ate 2 cep_limpo
  end.

Section Cadeia.
Context {Mundo : Type} `{!Servicos Mundo}.

(** [cadeia consulta1 cep w resultado novos]: resolving [cep] in world [w]
    by the chain, with [consulta1] as the first geocoding query, ends in
    [resultado] after issuing exactly the requests [novos]. *)
Inductive cadeia (consulta1 : DadosCep -> str) (cep : str) (w : Mundo)
    : excecao + Coordenada -> list Pedido -> Prop :=
  | cadeia_cep_invalido r1 w1 :
      viacep (limpar_cep cep) w = (Some r1, w1) ->
      status_code r1 = 200%Z -> json r1 = Some ViaCepErro ->
      cadeia consulta1 cep w (inl (CepInvalido cep))
        [PedidoViaCep (limpar_cep cep)]
  | cadeia_endereco_completo r1 w1 d r2 w2 la lo :
      viacep (limpar_cep cep) w = (Some r1, w1) ->
      status_code r1 = 200%Z -> json r1 = Some (ViaCepDados d) ->
      nominatim (consulta1 d) false w1 = (Some r2, w2) ->
      primeiro_resultado r2 la lo ->
      cadeia consulta1 cep w
        (inr {| lat := la; lon := lo;
                endereco := strip_chars virgula_ou_espaco
                  (logradouro d ++ utf8 ", " ++ bairro d ++ utf8 ", " ++
                   localidade d ++ utf8 "-" ++ dados_uf d);
                cidade := localidade d; uf := dados_uf d; cep := None |})
        [PedidoViaCep (limpar_cep cep); PedidoNominatim (consulta1 d) false]
  | cadeia_cidade r1 w1 d r2 w2 r3 w3 la lo :
      viacep (limpar_cep cep) w = (Some r1, w1) ->
      status_code r1 = 200%Z -> json r1 = Some (ViaCepDados d) ->
      nominatim (consulta1 d) false w1 = (Some r2, w2) ->
      sem_resultado r2 ->
      nominatim (endereco_cidade d) false w2 = (Some r3, w3) ->
      primeiro_resultado r3 la lo ->
      cadeia consulta1 cep w
        (inr {| lat := la; lon := lo;
                endereco := localidade d ++ utf8 "-" ++ dados_uf d;
                cidade := localidade d; uf := dados_uf d; cep := None |})
        [PedidoViaCep (limpar_cep cep); PedidoNominatim (consulta1 d) false;
         PedidoNominatim (endereco_cidade d) false]
  | cadeia_tabela r1 w1 d r2 w2 r3 w3 coords :
      viacep (limpar_cep cep) w = (Some r1, w1) ->
      status_code r1 = 200%Z -> json r1 = Some (ViaCepDados d) ->
      nominatim (consulta1 d) false w1 = (Some r2, w2) ->
      sem_resultado r2 ->
      nominatim (endereco_cidade d) false w2 = (Some r3, w3) ->
      sem_resultado r3 ->
      tabela_por_prefixo (limpar_cep cep) = Some coords ->
      cadeia consulta1 cep w
        (inr {| lat := coords.1; lon := coords.2;
                endereco := localidade d ++ utf8 "-" ++ dados_uf d ++ utf8 " (aproximado)";
                cidade := localidade d; uf := dados_uf d; cep := None |})
        [PedidoViaCep (limpar_cep cep); PedidoNominatim (consulta1 d) false;
         PedidoNominatim (endereco_cidade d) false]
  | cadeia_indisponivel r1 w1 d r2 w2 r3 w3 :
      viacep (limpar_cep cep) w = (Some r1, w1) ->
      status_code r1 = 200%Z -> json r1 = Some (ViaCepDados d) ->
      nominatim (consulta1 d) false w1 = (Some r2, w2) ->
      sem_resultado r2 ->
      nominatim (endereco_cidade d) false w2 = (Some r3, w3) ->
      sem_resultado r3 ->
      tabela_por_prefixo (limpar_cep cep) = None ->
      cadeia consulta1 cep w (inl (CoordenadasIndisponiveis cep))
        [PedidoViaCep (limpar_cep cep); PedidoNominatim (consulta1 d) false;
         PedidoNominatim (endereco_cidade d) false].

(** The registry answers the query for [cep] with status 200 and a JSON
    body. *)
Definition registro_responde (cep : str) (w : Mundo) : Prop :=
  exists r w',
    viacep (limpar_cep cep) w = (Some r, w') /\
    status_code r = 200%Z /\ json r <> None.

(** The geocoder answers every query: with no result, or with a list whose
    first candidate has a latitude and a longitude. *)
Definition geocodificador_responde : Prop :=
  forall q w, exists r w',
    nominatim q false w = (Some r, w') /\
    (sem_resultado r \/ exists la lo, primeiro_resultado r la lo).

End Cadeia.

(** ** Concrete worlds and platforms *)

(** A world whose services answer. *)
Inductive MundoExemplo : Type := mundo_exemplo.

Definition dados_bauru : DadosCep :=
  mkDadosCep (utf8 "Rua Primeiro de Agosto") (utf8 "Centro") (utf8 "Bauru") (utf8 "SP").
Definition dados_marilia : DadosCep :=
  mkDadosCep (utf8 "Avenida Sampaio Vidal") (utf8 "Centro") (utf8 "Marília") (utf8 "SP").
Definition dados_agudos : DadosCep :=
  mkDadosCep [] [] (utf8 "Agudos") (utf8 "SP").

Definition ponto (la lo : R) : Candidato :=
  mkCandidato (Some la) (Some lo) None None.

Definition viacep_exemplo (cep_limpo : str) : option (Resposta CorpoViaCep) :=
  if igual cep_limpo (utf8 "17017337")
  then Some (mkResposta 200 (Some (ViaCepDados dados_bauru)))
  else if igual cep_limpo (utf8 "17500005")
  then Some (mkResposta 200 (Some (ViaCepDados dados_marilia)))
  else if igual cep_limpo (utf8 "17120000")
  then Some (mkResposta 200 (Some (ViaCepDados dados_agudos)))
  else if igual cep_limpo (utf8 "99999999")
  then Some (mkResposta 200 (Some ViaCepErro))
  else Some (mkResposta 400 None).

Definition nominatim_exemplo (q : str) (addressdetails : bool)
    : option (Resposta (list Candidato)) :=
  if igual q (endereco_rua dados_bauru)
  then Some (mkResposta 200 (Some [ponto (-22.3155) (-49.0708)]))
  else if igual q (endereco_rua dados_marilia)
  then Some (mkResposta 200 (Some [ponto (-22.2139) (-49.9458)]))
  else if igual q (utf8 "Avenida Paulista, São Paulo, Brazil")
  then Some (mkResposta 200 (Some [
         mkCandidato (Some (-23.5614)) (Some (-46.6559))
           (Some (utf8 "Avenida Paulista, Bela Vista, São Paulo, Brasil"))
           (Some (mkAddress (Some (utf8 "São Paulo")) None None None None
                            (Some (utf8 "São Paulo")) (Some (utf8 "01310-100"))))]))
  else Some (mkResposta 200 (Some [])).

Definition osrm_exemplo : option (Resposta CorpoOsrm) :=
  Some (mkResposta 200
    (Some (mkCorpoOsrm (Some (utf8 "Ok")) (Some [mkRota (Some 50000) (Some 2400)])))).

#[global] Instance servicos_exemplo : Servicos MundoExemplo := {|
  viacep cep_limpo w := (viacep_exemplo cep_limpo, w);
  nominatim q addressdetails w := (nominatim_exemplo q addressdetails, w);
  router_osrm lon1 lat1 lon2 lat2 w := (osrm_exemplo, w);
  agora w := utf8 "2024-01-01T12:00:00"
|}.

(** A world in which every request raises. *)
Inductive MundoSemRede : Type := mundo_sem_rede.

#[global] Instance servicos_sem_rede : Servicos MundoSemRede := {|
  viacep cep_limpo w := (None, w);
  nominatim q addressdetails w := (None, w);
  router_osrm lon1 lat1 lon2 lat2 w := (None, w);
  agora w := utf8 "2024-01-01T12:00:00"
|}.

(** A world whose routing service answers 503 to every query. *)
Inductive MundoSemRotas : Type := mundo_sem_rotas.

#[global] Instance servicos_sem_rotas : Servicos MundoSemRotas := {|
  viacep cep_limpo w := (viacep_exemplo cep_limpo, w);
  nominatim q addressdetails w := (nominatim_exemplo q addressdetails, w);
  router_osrm lon1 lat1 lon2 lat2 w := (Some (mkResposta 503 None), w);
  agora w := utf8 "2024-01-01T12:00:00"
|}.

Definition estado_inicial {Mundo} (w : Mundo) : Estado Mundo := mkEstado ∅ w [].

Definition coord_bauru : Coordenada :=
  mkCoordenada (-22.3155) (-49.0708) (utf8 "Bauru-SP") (utf8 "Bauru") (utf8 "SP") None.
Definition coord_marilia : Coordenada :=
  mkCoordenada (-22.2139) (-49.9458) (utf8 "Marília-SP") (utf8 "Marília") (utf8 "SP") None.

(** Two nearly antipodal points: 82 S on the Greenwich meridian and 82 N
    on the antimeridian. *)
Definition coord_sul : Coordenada := mkCoordenada (-82) 0 [] [] [] None.
Definition coord_norte : Coordenada := mkCoordenada 82 180 [] [] [] None.

(** Exact sine and cosine. *)
Definition libm_exata : Libm := {| py_sin := sin; py_cos := cos |}.

(** The binary64 values glibc 2.36 (x86-64) returns at the arguments
    reached from [coord_sul] and [coord_norte]:
    [sin(radians(180) / 2) = 1.0],
    [sin((radians(82) - radians(-82)) / 2) = 0x1.fb046a930947ap-1] and
    [cos(radians(82)) = cos(radians(-82)) = 0x1.1d06c968d9e1ap-3];
    at the other arguments, the exact functions. *)
Definition libm_glibc : Libm := {|
  py_sin x :=
    if Req_dec_T x (radians 180 / 2) then 1
    else if Req_dec_T x (radians 82) then 4459770905381437 / 4503599627370496
    else sin x;
  py_cos x :=
    if Req_dec_T x (radians 82) then 2507119702494989 / 18014398509481984
    else if Req_dec_T x (radians (-82)) then 2507119702494989 / 18014398509481984
    else cos x
|}.

(** ** Notions used in the statements *)

Section Nocoes.
Context {Mundo : Type} {servicos : Servicos Mundo} {libm : Libm}.

(** What one call of a resolver does to the state, by the key [k] it uses:
    a cached key is answered from the cache and nothing changes; otherwise
    the cache is left alone on failure and gains [k] on success. *)
Definition efeito_resolver (k : str) (st : Estado Mundo)
    (r : (excecao + Coordenada) * Estado Mundo) : Prop :=
  match CACHE_COORDENADAS st !! k with
  | Some c => r = (inr c, st)
  | None =>
    match r.1 with
    | inl _ => CACHE_COORDENADAS r.2 = CACHE_COORDENADAS st
    | inr c => CACHE_COORDENADAS r.2 = <[k := c]> (CACHE_COORDENADAS st)
    end
  end.

(** The state after one routing query: the cache is untouched, the world
    has moved on, the request is logged. *)
Definition apos_osrm (o d : Coordenada) (st : Estado Mundo) : Estado Mundo :=
  mkEstado (CACHE_COORDENADAS st)
    (router_osrm (lon o) (lat o) (lon d) (lat d) (mundo st)).2
    (pedidos st ++ [PedidoOsrm (lon o) (lat o) (lon d) (lat d)]).

(** The answer of the routing service in state [st]. *)
Definition resposta_osrm (o d : Coordenada) (st : Estado Mundo)
    : option (Resposta CorpoOsrm) :=
  (router_osrm (lon o) (lat o) (lon d) (lat d) (mundo st)).1.

(** A computation keeps every entry the cache already has. *)
Definition mantem {A} (m : M Mundo A) : Prop :=
  forall st k v,
    CACHE_COORDENADAS st !! k = Some v ->
    CACHE_COORDENADAS (m st).2 !! k = Some v.

(** Resolving [cep] from state [st] follows the chain whose first geocoding
    query is [consulta1]: outcome and requests issued are the chain's. *)
Definition segue_cadeia (consulta1 : DadosCep -> str) (cep : str)
    (st : Estado Mundo) : Prop :=
  exists novos,
    pedidos (obter_coordenadas_viacep cep st).2 = pedidos st ++ novos /\
    cadeia consulta1 cep (mundo st) (obter_coordenadas_viacep cep st).1 novos.

End Nocoes.

(** [endereco_busca] of [obter_coordenadas_por_endereco]: the address as
    given, with ", Brazil" appended unless it already names the country. *)
Definition consulta_endereco (endereco_completo : str) : str :=
  if negb (contem (utf8 "brazil") (lower endereco_completo)) &&
     negb (contem (utf8 "brasil") (lower endereco_completo))
  then endereco_completo ++ utf8 ", Brazil"
  else endereco_completo.

(** The request a resolver issues first when its key is not cached. *)
Definition primeiro_pedido (i : Identificador) : Pedido :=
  match i with
  | PorCep cep => PedidoViaCep (limpar_cep cep)
  | PorEndereco e => PedidoNominatim (consulta_endereco e) true
  end.

(** Every cache entry stored under an address key carries the ['cep']
    field that [calcular_taxa_por_endereco] reads. *)
Definition cache_coerente (m : gmap str Coordenada) : Prop :=
  forall k c,
    m !! k = Some c -> startswith (utf8 "endereco_") k = true -> cep c <> None.

(** ** Facts about the numeric layer *)

Lemma floor_bounds (x : R) : IZR (up x - 1) <= x < IZR (up x - 1) + 1.
Proof.
  destruct (archimed x) as [H1 H2]. rewrite minus_IZR. lra.
Qed.

Lemma floor_unique (x : R) (z : Z) : IZR z <= x < IZR z + 1 -> (up x - 1)%Z = z.
Proof.
  intros [H1 H2].
  assert (E : (z + 1)%Z = up x).
  { apply tech_up; rewrite plus_IZR; lra. }
  lia.
Qed.

Lemma floor_mono (x y : R) : x <= y -> (up x - 1 <= up y - 1)%Z.
Proof.
  intros Hxy.
  destruct (floor_bounds x) as [Hx1 Hx2], (floor_bounds y) as [Hy1 Hy2].
  apply Z.lt_succ_r, lt_IZR. rewrite succ_IZR. lra.
Qed.

Lemma round_half_even_bounds (x : R) :
  (up x - 1 <= round_half_even x <= up x - 1 + 1)%Z.
Proof.
  unfold round_half_even.
  repeat destruct (Rlt_dec _ _); try destruct (Z.even _); lia.
Qed.

Lemma round_half_even_IZR (z : Z) : round_half_even (IZR z) = z.
Proof.
  unfold round_half_even.
  assert (E : (up (IZR z) - 1)%Z = z) by (apply floor_unique; lra).
  rewrite E. destruct (Rlt_dec _ _) as [|n]; [done | exfalso; apply n; lra].
Qed.

Lemma round_half_even_mono (x y : R) :
  x <= y -> (round_half_even x <= round_half_even y)%Z.
Proof.
  intros Hxy.
  pose proof (floor_mono x y Hxy) as Hf.
  destruct (Z.eq_dec (up x - 1)%Z (up y - 1)%Z) as [E | NE].
  - unfold round_half_even. rewrite <- E.
    repeat destruct (Rlt_dec _ _); try destruct (Z.even _); try lia; lra.
  - pose proof (round_half_even_bounds x). pose proof (round_half_even_bounds y).
    lia.
Qed.

Lemma pow10_pos (n : nat) : 0 < 10 ^ n.
Proof. apply pow_lt; lra. Qed.

Lemma py_round_mono (n : nat) (x y : R) : x <= y -> py_round x n <= py_round y n.
Proof.
  intros Hxy. unfold py_round. pose proof (pow10_pos n) as Hp.
  apply Rmult_le_compat_r; [left; by apply Rinv_0_lt_compat |].
  apply IZR_le, round_half_even_mono, Rmult_le_compat_r; lra.
Qed.

Lemma py_round_IZR (n : nat) (z : Z) : py_round (IZR z) n = IZR z.
Proof.
  unfold py_round. pose proof (pow10_pos n) as Hp.
  assert (E : IZR z * 10 ^ n = IZR (z * 10 ^ Z.of_nat n)).
  { rewrite mult_IZR. f_equal. rewrite <- pow_IZR. done. }
  rewrite E, round_half_even_IZR, <- E. field. lra.
Qed.

(** * Properties *)

(** ** The franchise rule *)

Lemma calcular_taxa_acima (d : R) :
  30 < d -> calcular_taxa d = (2 * d - 60, (2 * d - 60) * (16 / 10)).
Proof.
  intros Hd. unfold calcular_taxa, FRANQUIA_KM_TOTAL, FRANQUIA_KM_IDA, TAXA_POR_KM.
  destruct (Rlt_dec 30 d) as [_ | n]; [| contradiction].
  f_equal; lra.
Qed.

Lemma calcular_taxa_dentro (d : R) : d <= 30 -> calcular_taxa d = (0, 0).
Proof.
  intros Hd. unfold calcular_taxa, FRANQUIA_KM_IDA.
  destruct (Rlt_dec 30 d) as [Hlt | _]; [lra | reflexivity].
Qed.

Lemma valor_taxa_nao_negativo (d : R) : 0 <= (calcular_taxa d).2.
Proof.
  destruct (Rlt_dec 30 d) as [Hd | Hd].
  - rewrite calcular_taxa_acima by done. simpl. lra.
  - rewrite calcular_taxa_dentro by lra. simpl. lra.
Qed.

Lemma valor_taxa_monotono (d1 d2 : R) :
  d1 <= d2 -> (calcular_taxa d1).2 <= (calcular_taxa d2).2.
Proof.
  intros H12.
  destruct (Rlt_dec 30 d1) as [H1 | H1].
  - rewrite !calcular_taxa_acima by lra. simpl. lra.
  - rewrite (calcular_taxa_dentro d1) by lra. apply valor_taxa_nao_negativo.
Qed.

Lemma py_round_0 (n : nat) : py_round 0 n = 0.
Proof. apply (py_round_IZR n 0). Qed.

Lemma py_round_nao_negativo (n : nat) (x : R) : 0 <= x -> 0 <= py_round x n.
Proof. intros Hx. rewrite <- (py_round_0 n). by apply py_round_mono. Qed.

(** ** The great-circle fallback *)

Lemma sin2_metade (x y : R) :
  sin ((x - y) / 2) ^ 2 = (1 - cos x * cos y - sin x * sin y) / 2.
Proof.
  pose proof (cos_2a_sin ((x - y) / 2)) as H.
  replace (2 * ((x - y) / 2)) with (x - y) in H by lra.
  rewrite cos_minus in H. lra.
Qed.

Lemma sin2_entre_0_e_1 (x : R) : 0 <= sin x ^ 2 <= 1.
Proof.
  pose proof (sin2_cos2 x) as H. unfold Rsqr in H.
  pose proof (pow2_ge_0 (sin x)). pose proof (pow2_ge_0 (cos x)). nra.
Qed.

Lemma haversine_a_entre_0_e_1 (o d : Coordenada) :
  0 <= @haversine_a libm_exata o d <= 1.
Proof.
  unfold haversine_a, py_sin, py_cos, libm_exata.
  set (p1 := radians (lat o)). set (p2 := radians (lat d)).
  set (v := (radians (lon d) - radians (lon o)) / 2).
  rewrite sin2_metade.
  pose proof (sin2_entre_0_e_1 v) as [Hs0 Hs1].
  pose proof (sin2_cos2 p1) as H1. pose proof (sin2_cos2 p2) as H2.
  unfold Rsqr in H1, H2.
  set (S := sin v ^ 2) in *.
  set (s1 := sin p1) in *. set (c1 := cos p1) in *.
  set (s2 := sin p2) in *. set (c2 := cos p2) in *.
  set (t := 1 - 2 * S).
  assert (Ht : -1 <= t <= 1) by (unfold t; lra).
  assert (Ht2 : 0 <= c2 * c2 * (1 - t * t)).
  { apply Rmult_le_pos; [nra | nra]. }
  assert (E1 : 2 * (1 - s2 * s1 - t * (c2 * c1))
               = (s1 - s2) * (s1 - s2) + (c1 - t * c2) * (c1 - t * c2)
                 + c2 * c2 * (1 - t * t)) by nra.
  assert (E2 : 2 * (1 + s2 * s1 + t * (c2 * c1))
               = (s1 + s2) * (s1 + s2) + (c1 + t * c2) * (c1 + t * c2)
                 + c2 * c2 * (1 - t * t)) by nra.
  pose proof (Rle_0_sqr (s1 - s2)) as Q1. pose proof (Rle_0_sqr (c1 - t * c2)) as Q2.
  pose proof (Rle_0_sqr (s1 + s2)) as Q3. pose proof (Rle_0_sqr (c1 + t * c2)) as Q4.
  unfold Rsqr in Q1, Q2, Q3, Q4.
  unfold t in *. split; lra.
Qed.

Lemma atan2_sqrt_asin (a : R) :
  0 <= a <= 1 -> atan2 (sqrt a) (sqrt (1 - a)) = asin (sqrt a).
Proof.
  intros [H0 H1]. unfold atan2.
  destruct (Req_dec a 1) as [-> | Hne].
  - replace (1 - 1) with 0 by lra. rewrite sqrt_0, sqrt_1, asin_1.
    destruct (Rlt_dec 0 0) as [? | _]; [lra |].
    destruct (Rlt_dec 0 1) as [_ | ?]; [reflexivity | lra].
  - assert (Hpos : 0 < sqrt (1 - a)) by (apply sqrt_lt_R0; lra).
    destruct (Rlt_dec 0 (sqrt (1 - a))) as [_ | ?]; [| contradiction].
    assert (Hs : sqrt a < 1).
    { rewrite <- sqrt_1. apply sqrt_lt_1; lra. }
    pose proof (sqrt_pos a) as Hs0.
    rewrite asin_atan by lra.
    do 3 f_equal. unfold Rsqr. rewrite sqrt_sqrt by lra. reflexivity.
Qed.

Section Reserva.
Context `{!Libm}.

(** The fallback returns when [a] lies in [0, 1], and raises [ValueError]
    from one of its two square roots otherwise. *)
Lemma calcular_distancia_haversine_casos (o d : Coordenada) :
  (0 <= haversine_a o d <= 1 /\
   calcular_distancia_haversine o d = inr (estimativa_de (haversine_a o d)))
  \/
  ((haversine_a o d < 0 \/ 1 < haversine_a o d) /\
   calcular_distancia_haversine o d = inl ValueError).
Proof.
  unfold calcular_distancia_haversine, py_sqrt.
  destruct (Rlt_dec (haversine_a o d) 0) as [Hneg | Hpos]; [right; auto |].
  destruct (Rlt_dec (1 - haversine_a o d) 0) as [Hgt | Hle].
  - right. split; [right; lra | reflexivity].
  - left. split; [lra |]. rewrite atan2_sqrt_asin by lra. reflexivity.
Qed.

Lemma calcular_distancia_haversine_excecao (o d : Coordenada) (e : excecao) :
  calcular_distancia_haversine o d = inl e -> e = ValueError.
Proof.
  destruct (calcular_distancia_haversine_casos o d) as [[_ ->] | [_ ->]]; congruence.
Qed.

End Reserva.

Lemma calcular_distancia_haversine_correto (o d : Coordenada) :
  @calcular_distancia_haversine libm_exata o d = inr (estimativa_reserva o d).
Proof.
  pose proof (haversine_a_entre_0_e_1 o d) as [H0 H1].
  destruct (@calcular_distancia_haversine_casos libm_exata o d) as [[_ ->] | [Hf _]];
    [| lra].
  unfold estimativa_de, estimativa_reserva, distancia_grande_circulo, VELOCIDADE_MEDIA,
    RAIO_TERRA.
  change (hav (lat d * PI / 180 - lat o * PI / 180) +
          cos (lat o * PI / 180) * cos (lat d * PI / 180) *
          hav (lon d * PI / 180 - lon o * PI / 180)) with (@haversine_a libm_exata o d).
  do 2 f_equal; field.
Qed.

(** ** Stepping through monadic code *)

(** The fallback table and the literals are kept folded while stepping. *)
#[global] Opaque coordenadas_cidades utf8.

Ltac desdobrar :=
  unfold mbind, M_bind, mret, M_ret, raise, lift, getitem, cache_get, cache_set,
    requests_get, response_json, try_except, ler_relogio in *.

Ltac passo :=
  match goal with
  | |- context [match ?x with _ => _ end] =>
    lazymatch x with
    | context [match _ with _ => _ end] => fail
    | _ => destruct x eqn:?
    end
  end; simpl in *; simplify_eq; try done.

Section Resolver.
Context {Mundo : Type} {servicos : Servicos Mundo} {libm : Libm}.

Lemma obter_coordenadas_viacep_efeito (cep : str) (st : Estado Mundo) :
  efeito_resolver (limpar_cep cep) st (obter_coordenadas_viacep cep st).
Proof.
  unfold efeito_resolver, obter_coordenadas_viacep. desdobrar. simpl.
  destruct (CACHE_COORDENADAS st !! limpar_cep cep) eqn:Hc; [done |].
  repeat passo.
Qed.

Lemma obter_coordenadas_por_endereco_efeito (e : str) (st : Estado Mundo) :
  efeito_resolver (utf8 "endereco_" ++ strip (lower e)) st
    (obter_coordenadas_por_endereco e st).
Proof.
  unfold efeito_resolver, obter_coordenadas_por_endereco. desdobrar. simpl.
  destruct (CACHE_COORDENADAS st !! _) eqn:Hc; [done |].
  repeat passo.
Qed.

Lemma resolver_efeito (i : Identificador) (st : Estado Mundo) :
  efeito_resolver (chave i) st (resolver i st).
Proof.
  destruct i; [apply obter_coordenadas_viacep_efeito |
               apply obter_coordenadas_por_endereco_efeito].
Qed.

End Resolver.

Section Estimador.
Context {Mundo : Type} {servicos : Servicos Mundo} {libm : Libm}.

Lemma igual_verdade (a b : str) : igual a b = true <-> a = b.
Proof.
  revert b. induction a as [| x a IH]; intros [| y b]; simpl; try done.
  rewrite andb_true_iff, N.eqb_eq, IH. split; [by intros [-> ->] | by intros [= -> ->]].
Qed.

(** The estimator answers with the first route of a successful query, and
    otherwise with whatever the fallback does, return or raise. *)
Lemma calcular_distancia_osrm_casos (o d : Coordenada) (st : Estado Mundo) :
  (consulta_falhou (resposta_osrm o d st) /\
   calcular_distancia_osrm o d st = (calcular_distancia_haversine o d, apos_osrm o d st))
  \/
  (exists dd t, consulta_deu_rota (resposta_osrm o d st) dd t /\
   calcular_distancia_osrm o d st = (inr (mkEstimativa dd t osrm), apos_osrm o d st)).
Proof.
  unfold calcular_distancia_osrm, resposta_osrm, apos_osrm, consulta_deu_rota.
  generalize (calcular_distancia_haversine o d). intros reserva.
  desdobrar. simpl.
  destruct (router_osrm _ _ _ _ _) as [[r |] w] eqn:Hr; simpl;
    [| left; split; [constructor | done]].
  destruct r as [sc [data |]]; simpl.
  2:{ left. split; [by apply falhou_json |].
      by destruct (sc =? 200)%Z, reserva. }
  destruct (sc =? 200)%Z eqn:Hsc; simpl.
  2:{ left. split; [apply falhou_status; simpl; lia | by destruct reserva]. }
  apply Z.eqb_eq in Hsc. subst sc.
  destruct data as [[c |] rs]; simpl.
  2:{ left. split; [by eapply falhou_code | done]. }
  destruct (igual c (utf8 "Ok")) eqn:Hc; simpl.
  2:{ left. split; [| by destruct reserva]. eapply falhou_code; [done |]. simpl.
      intros [= ->]. by rewrite (proj2 (igual_verdade _ _) eq_refl) in Hc. }
  apply igual_verdade in Hc. subst c.
  destruct rs as [[| route rs] |]; simpl.
  1,3: left; split; [eapply falhou_sem_rotas; [done | simpl; auto] | by destruct reserva].
  destruct route as [[dd |] [t |]]; simpl.
  2-4: left; split; [eapply falhou_rota_incompleta; [done | done | simpl; auto] | done].
  right. exists dd, t. split; [| done]. by eexists _, _, _, _.
Qed.

(** The estimator raises nothing but the fallback's [ValueError]. *)
Lemma calcular_distancia_osrm_excecao (o d : Coordenada) (st : Estado Mundo)
    (e : excecao) :
  (calcular_distancia_osrm o d st).1 = inl e ->
  e = ValueError /\ calcular_distancia_haversine o d = inl ValueError /\
  consulta_falhou (resposta_osrm o d st).
Proof.
  destruct (calcular_distancia_osrm_casos o d st) as [[Hf ->] | (dd & t & _ & ->)];
    simpl; [| done].
  intros He. pose proof (calcular_distancia_haversine_excecao o d e He). subst e.
  auto.
Qed.

End Estimador.

Section Calculadoras.
Context {Mundo : Type} {servicos : Servicos Mundo} {libm : Libm}.

Lemma bind_inr {A B} (m : M Mundo A) (f : A -> M Mundo B) st y st' :
  (m ≫= f) st = (inr y, st') ->
  exists x st1, m st = (inr x, st1) /\ f x st1 = (inr y, st').
Proof.
  unfold mbind, M_bind. destruct (m st) as [[e | x] st1]; [done | eauto].
Qed.

Lemma mantem_bind {A B} (m : M Mundo A) (f : A -> M Mundo B) :
  mantem m -> (forall x, mantem (f x)) -> mantem (m ≫= f).
Proof.
  intros Hm Hf st k v Hk. specialize (Hm st k v Hk).
  unfold mbind, M_bind. destruct (m st) as [[e | x] st1]; [done |].
  by apply Hf.
Qed.

Lemma mantem_ret {A} (x : A) : mantem (mret x : M Mundo A).
Proof. by intros st k v Hk. Qed.

Lemma mantem_getitem {A} (c : string) (o : option A) : mantem (getitem c o : M Mundo A).
Proof. intros st k v Hk. by destruct o. Qed.

Lemma mantem_ler_relogio : mantem ler_relogio.
Proof. by intros st k v Hk. Qed.

Lemma mantem_resolver (i : Identificador) : mantem (resolver i).
Proof.
  intros st k v Hk. pose proof (resolver_efeito i st) as He.
  unfold efeito_resolver in He.
  destruct (CACHE_COORDENADAS st !! chave i) as [c |] eqn:Hc.
  - by rewrite He.
  - assert (chave i <> k) by congruence.
    destruct (resolver i st).1; rewrite He; [done | by rewrite lookup_insert_ne].
Qed.

Lemma calcular_distancia_osrm_estado (o d : Coordenada) (st : Estado Mundo) :
  (calcular_distancia_osrm o d st).2 = apos_osrm o d st.
Proof.
  destruct (calcular_distancia_osrm_casos o d st) as [[_ ->] | (dd & t & _ & ->)]; done.
Qed.

Lemma mantem_calcular_distancia_osrm (o d : Coordenada) :
  mantem (calcular_distancia_osrm o d).
Proof. intros st k v Hk. by rewrite calcular_distancia_osrm_estado. Qed.

Lemma mantem_fronteira (m : M Mundo Sucesso) :
  mantem m -> forall st k v,
    CACHE_COORDENADAS st !! k = Some v ->
    CACHE_COORDENADAS (fronteira m st).2 !! k = Some v.
Proof.
  intros Hm st k v Hk. specialize (Hm st k v Hk). unfold fronteira.
  by destruct (m st) as [[e | r] st1].
Qed.

Lemma calcular_taxa_deslocamento_mantem (cep_destino : str) st k v :
  CACHE_COORDENADAS st !! k = Some v ->
  CACHE_COORDENADAS (calcular_taxa_deslocamento cep_destino st).2 !! k = Some v.
Proof.
  apply mantem_fronteira.
  apply mantem_bind; [apply (mantem_resolver (PorCep _)) | intros co].
  apply mantem_bind; [apply (mantem_resolver (PorCep _)) | intros cd].
  apply mantem_bind; [apply mantem_calcular_distancia_osrm | intros est].
  apply mantem_bind; [apply mantem_ler_relogio | intros t]. apply mantem_ret.
Qed.

Lemma calcular_taxa_por_endereco_mantem (e : str) st k v :
  CACHE_COORDENADAS st !! k = Some v ->
  CACHE_COORDENADAS (calcular_taxa_por_endereco e st).2 !! k = Some v.
Proof.
  apply mantem_fronteira.
  apply mantem_bind; [apply (mantem_resolver (PorCep _)) | intros co].
  apply mantem_bind; [apply (mantem_resolver (PorEndereco _)) | intros cd].
  apply mantem_bind; [apply mantem_calcular_distancia_osrm | intros est].
  apply mantem_bind; [apply mantem_getitem | intros c].
  apply mantem_bind; [apply mantem_ler_relogio | intros t]. apply mantem_ret.
Qed.

Lemma responder_estado (r : ResultadoTaxa * Estado Mundo) : (responder r).2 = r.2.
Proof. by destruct r as [[s | c m] st]. Qed.

Lemma executar_mantem (c : Chamada) st k v :
  CACHE_COORDENADAS st !! k = Some v ->
  CACHE_COORDENADAS (executar c st) !! k = Some v.
Proof.
  intros Hk. destruct c as [i | data | cep | e]; simpl.
  - by apply mantem_resolver.
  - unfold calcular. repeat case_match; simpl; try done;
      rewrite responder_estado;
      by (apply calcular_taxa_por_endereco_mantem || apply calcular_taxa_deslocamento_mantem).
  - unfold teste. rewrite responder_estado. by apply calcular_taxa_deslocamento_mantem.
  - unfold teste_endereco. rewrite responder_estado.
    by apply calcular_taxa_por_endereco_mantem.
Qed.

Lemma executar_todas_mantem (cs : list Chamada) st k v :
  CACHE_COORDENADAS st !! k = Some v ->
  CACHE_COORDENADAS (executar_todas cs st) !! k = Some v.
Proof.
  revert st. induction cs as [| c cs IH]; intros st Hk; [done |].
  simpl. apply IH. by apply executar_mantem.
Qed.

(** A successful calculation prices the estimate the estimator returned. *)
Lemma calcular_taxa_deslocamento_sucesso (cep_destino : str) st r st' :
  calcular_taxa_deslocamento cep_destino st = (sucesso r, st') ->
  exists co cd est st1,
    calcular_distancia_osrm co cd st1 = (inr est, apos_osrm co cd st1) /\
    distancia r = montar_distancia est /\ calculo r = montar_calculo est.
Proof.
  unfold calcular_taxa_deslocamento, fronteira. intros H.
  match type of H with
  | match ?m st with _ => _ end = _ => destruct (m st) as [[e | r0] st0] eqn:Hm
  end; simplify_eq.
  apply bind_inr in Hm as (co & s1 & _ & Hm).
  apply bind_inr in Hm as (cd & s2 & _ & Hm).
  apply bind_inr in Hm as (est & s3 & Hest & Hm).
  apply bind_inr in Hm as (t & s4 & _ & Hm).
  unfold mret, M_ret in Hm. simplify_eq. exists co, cd, est, s2. simpl.
  pose proof (calcular_distancia_osrm_estado co cd s2) as Hs.
  rewrite Hest in Hs. simpl in Hs. by subst s3.
Qed.

Lemma calcular_taxa_por_endereco_sucesso (endereco_destino : str) st r st' :
  calcular_taxa_por_endereco endereco_destino st = (sucesso r, st') ->
  exists co cd est st1,
    calcular_distancia_osrm co cd st1 = (inr est, apos_osrm co cd st1) /\
    distancia r = montar_distancia est /\ calculo r = montar_calculo est.
Proof.
  unfold calcular_taxa_por_endereco, fronteira. intros H.
  match type of H with
  | match ?m st with _ => _ end = _ => destruct (m st) as [[e | r0] st0] eqn:Hm
  end; simplify_eq.
  apply bind_inr in Hm as (co & s1 & _ & Hm).
  apply bind_inr in Hm as (cd & s2 & _ & Hm).
  apply bind_inr in Hm as (est & s3 & Hest & Hm).
  apply bind_inr in Hm as (c & s4 & _ & Hm).
  apply bind_inr in Hm as (t & s5 & _ & Hm).
  unfold mret, M_ret in Hm. simplify_eq. exists co, cd, est, s2. simpl.
  pose proof (calcular_distancia_osrm_estado co cd s2) as Hs.
  rewrite Hest in Hs. simpl in Hs. by subst s3.
Qed.

End Calculadoras.

(** * The claims *)

Section Afirmacoes.
Context {Mundo : Type} {servicos : Servicos Mundo} {libm : Libm}.

(** C1. Every successful fee calculation, by postal code or by address,
    prices the estimate [est] the estimator returned. With
    [d = distancia_metros est / 1000] the one-way distance in kilometres:
    if [d > 30] the excess is [2 * d - 60] and the fee is the excess times
    1.60, otherwise both are 0; the payload reports excess and fee rounded
    to two decimals. At [d = 50] the payload shows a round trip of 100 km,
    an excess of 40 km and a fee of 64.00. *)
Theorem C1_formula_da_taxa (cep_destino endereco_destino : str)
    (st st' : Estado Mundo) (r : Sucesso) :
  calcular_taxa_deslocamento cep_destino st = (sucesso r, st') \/
  calcular_taxa_por_endereco endereco_destino st = (sucesso r, st') ->
  exists co cd est st1,
    calcular_distancia_osrm co cd st1 = (inr est, apos_osrm co cd st1) /\
    let d := distancia_metros est / 1000 in
    (30 < d -> calcular_taxa d = (2 * d - 60, (2 * d - 60) * (16 / 10))) /\
    (d <= 30 -> calcular_taxa d = (0, 0)) /\
    km_excedente (calculo r) = py_round (calcular_taxa d).1 2 /\
    valor_taxa (calculo r) = py_round (calcular_taxa d).2 2 /\
    ida_volta_km (distancia r) = py_round (d * 2) 2 /\
    (d = 50 ->
       ida_volta_km (distancia r) = 100 /\
       km_excedente (calculo r) = 40 /\
       valor_taxa (calculo r) = 64).
Proof.
  intros H.
  assert (exists co cd est st1,
    calcular_distancia_osrm co cd st1 = (inr est, apos_osrm co cd st1) /\
    distancia r = montar_distancia est /\ calculo r = montar_calculo est)
    as (co & cd & est & st1 & Hest & Hd & Hc).
  { destruct H as [H | H];
      [eapply calcular_taxa_deslocamento_sucesso | eapply calcular_taxa_por_endereco_sucesso];
      exact H. }
  exists co, cd, est, st1. split; [exact Hest |].
  rewrite Hd, Hc. cbn zeta. simpl.
  split; [apply calcular_taxa_acima |].
  split; [apply calcular_taxa_dentro |].
  do 3 (split; [reflexivity |]).
  intros ->. rewrite calcular_taxa_acima by lra. simpl.
  replace (50 * 2) with (IZR 100) by lra.
  replace (2 * 50 - 60) with (IZR 40) by lra.
  replace (IZR 40 * (16 / 10)) with (IZR 64) by lra.
  by rewrite !py_round_IZR.
Qed.

(** C6. The fee is a non-decreasing function of the one-way distance,
    before and after rounding, and it is 0 for every one-way distance of
    at most 30 km. *)
Theorem C6_taxa_monotona (e1 e2 : Estimativa) :
  distancia_metros e1 <= distancia_metros e2 ->
  (calcular_taxa (distancia_metros e1 / 1000)).2
    <= (calcular_taxa (distancia_metros e2 / 1000)).2 /\
  valor_taxa (montar_calculo e1) <= valor_taxa (montar_calculo e2) /\
  (distancia_metros e1 / 1000 <= 30 ->
     (calcular_taxa (distancia_metros e1 / 1000)).2 = 0 /\
     valor_taxa (montar_calculo e1) = 0).
Proof.
  intros H12.
  assert (Hd : distancia_metros e1 / 1000 <= distancia_metros e2 / 1000) by lra.
  split; [by apply valor_taxa_monotono |].
  split; [by apply py_round_mono, valor_taxa_monotono |].
  intros H30. simpl. rewrite calcular_taxa_dentro by done. simpl.
  split; [reflexivity | apply py_round_0].
Qed.

(** C7. The fee of every successful calculation is at least 0. *)
Theorem C7_taxa_nao_negativa (cep_destino endereco_destino : str)
    (st st' : Estado Mundo) (r : Sucesso) :
  calcular_taxa_deslocamento cep_destino st = (sucesso r, st') \/
  calcular_taxa_por_endereco endereco_destino st = (sucesso r, st') ->
  0 <= valor_taxa (calculo r).
Proof.
  intros H.
  assert (exists est, calculo r = montar_calculo est) as [est ->].
  { destruct H as [H | H];
      [apply calcular_taxa_deslocamento_sucesso in H
      | apply calcular_taxa_por_endereco_sucesso in H];
      destruct H as (_ & _ & est & _ & _ & _ & Hc); eauto. }
  simpl. apply py_round_nao_negativo, valor_taxa_nao_negativo.
Qed.

End Afirmacoes.

Section AfirmacoesCache.
Context {Mundo : Type} {servicos : Servicos Mundo} {libm : Libm}.

(** C5. A successful resolution leaves its Coordinate in the cache under
    the normalized key; after any further calls of the service (the cache
    not being cleared), resolving an identifier with the same normalized
    key returns that same Coordinate and leaves the state as it is: no
    request is issued and the world is not consulted. *)
Theorem C5_cache_idempotente (i : Identificador) (st st1 : Estado Mundo)
    (c : Coordenada) :
  resolver i st = (inr c, st1) ->
  CACHE_COORDENADAS st1 !! chave i = Some c /\
  forall (cs : list Chamada) (i' : Identificador),
    chave i' = chave i ->
    resolver i' (executar_todas cs st1) = (inr c, executar_todas cs st1).
Proof.
  intros Hr.
  assert (Hc : CACHE_COORDENADAS st1 !! chave i = Some c).
  { pose proof (resolver_efeito i st) as He. unfold efeito_resolver in He.
    rewrite Hr in He. simpl in He.
    destruct (CACHE_COORDENADAS st !! chave i) as [c0 |] eqn:Hk.
    - by simplify_eq.
    - rewrite He. apply lookup_insert_eq. }
  split; [exact Hc |].
  intros cs i' Hi'.
  pose proof (executar_todas_mantem cs st1 _ _ Hc) as Hc'.
  pose proof (resolver_efeito i' (executar_todas cs st1)) as He.
  unfold efeito_resolver in He. by rewrite Hi', Hc' in He.
Qed.

(** C10. A resolution that fails, by either path, leaves the cache exactly
    as it was. *)
Theorem C10_falha_preserva_cache (i : Identificador) (st st1 : Estado Mundo)
    (e : excecao) :
  resolver i st = (inl e, st1) ->
  CACHE_COORDENADAS st1 = CACHE_COORDENADAS st.
Proof.
  intros Hr. pose proof (resolver_efeito i st) as He.
  unfold efeito_resolver in He. rewrite Hr in He. simpl in He.
  by destruct (CACHE_COORDENADAS st !! chave i).
Qed.

(** C8, amended. A POST /calcular whose JSON object has no ["endereco"]
    field and carries under ["cep"] a string whose digits (the characters
    [str.isdigit] accepts, which [limpar_cep] keeps) do not number exactly 8
    is answered 400 with code [CEP_INVALIDO], and the state is untouched:
    no request is issued and the cache is not changed. *)
Theorem C8_cep_malformado (data : gmap string Valor) (cep : str)
    (st : Estado Mundo) :
  data !! "endereco" = None ->
  data !! "cep" = Some (VStr cep) ->
  length (limpar_cep cep) <> 8%nat ->
  calcular (Some data) st = ((JsonErro "CEP_INVALIDO" (Some cep), 400%Z), st).
Proof.
  intros He Hc Hl. unfold calcular.
  assert (Hs : (size data =? 0)%nat = false).
  { apply Nat.eqb_neq. intros Hz. apply map_size_empty_iff in Hz.
    subst data. by rewrite lookup_empty in Hc. }
  rewrite Hs, He, Hc. apply Nat.eqb_neq in Hl. by rewrite Hl.
Qed.

(** C9, amended. For a postal code whose digits (the characters
    [str.isdigit] accepts) number exactly 8, GET /teste/<cep> answers as
    POST /calcular with the body [{"cep": cep}]; for an address that is not
    empty and that [str.strip] leaves as it is (no leading or trailing
    white space), GET /teste-endereco/<endereco> answers as
    POST /calcular with the body [{"endereco": endereco}]: same response,
    same status code and same final state, from the same state. *)
Theorem C9_rotas_de_teste (s : str) (st : Estado Mundo) :
  (length (limpar_cep s) = 8%nat ->
   teste s st = calcular (Some {["cep" := VStr s]}) st) /\
  (strip s = s -> s <> [] ->
   teste_endereco s st = calcular (Some {["endereco" := VStr s]}) st).
Proof.
  split.
  - intros Hl. unfold teste, calcular.
    rewrite map_size_singleton. simpl.
    rewrite lookup_singleton_ne by done. rewrite lookup_singleton_eq.
    apply Nat.eqb_eq in Hl. by rewrite Hl.
  - intros Hs Hne. unfold teste_endereco, calcular.
    rewrite map_size_singleton. simpl. rewrite lookup_singleton_eq.
    rewrite Hs. by destruct s.
Qed.

End AfirmacoesCache.

Section AfirmacaoCadeia.
Context {Mundo : Type} {servicos : Servicos Mundo} {libm : Libm}.

Ltac abrir_respostas :=
  repeat match goal with
  | H : primeiro_resultado _ _ _ |- _ =>
    destruct H as (? & [? ?] & ? & ? & ? & ?)
  | r : Resposta _ |- _ => destruct r as [? ?]
  | c : Candidato |- _ => destruct c as [? ? ? ?]
  end; simpl in *; simplify_eq.

Ltac seguir :=
  repeat first
    [ progress simpl
    | match goal with
      | H : viacep _ _ = _ |- _ => rewrite H
      | H : nominatim _ _ _ = _ |- _ => rewrite H
      | H : coordenadas_cidades !! _ = _ |- _ => rewrite H
      | H : (_ =? _)%Z = _ |- _ => rewrite H
      end ].

Lemma sem_resultado_casos (sc : Z) (j : option (list Candidato)) :
  sem_resultado (mkResposta sc j) ->
  (sc =? 200)%Z = false \/ ((sc =? 200)%Z = true /\ j = Some []).
Proof.
  intros [Hs | Hj]; simpl in *.
  - left. by apply Z.eqb_neq.
  - destruct (sc =? 200)%Z; auto.
Qed.

(** Whatever the chain derives from the answers of the services is what
    the resolver returns, after the requests the chain lists. *)
Lemma cadeia_determina_resultado (cep : str) (st : Estado Mundo)
    (res : excecao + Coordenada) (novos : list Pedido) :
  CACHE_COORDENADAS st !! limpar_cep cep = None ->
  cadeia primeira_consulta cep (mundo st) res novos ->
  (obter_coordenadas_viacep cep st).1 = res /\
  pedidos (obter_coordenadas_viacep cep st).2 = pedidos st ++ novos.
Proof.
  intros Hc Hcad. unfold obter_coordenadas_viacep. desdobrar. simpl. rewrite Hc.
  destruct Hcad; abrir_respostas.
  all: repeat match goal with
       | H : sem_resultado _ |- _ => apply sem_resultado_casos in H as [H | [H ->]]
       end.
  all: try match goal with
       | H : tabela_por_prefixo _ = _ |- _ =>
         unfold tabela_por_prefixo in H;
         destruct (coordenadas_cidades !! ate 5 (limpar_cep cep)) eqn:?; simplify_eq
       end.
  all: seguir.
  all: rewrite <- ?app_assoc; simpl; try done.
Qed.

(** The chain has an outcome whenever the registry and the geocoder
    answer. *)
Lemma cadeia_definida (consulta1 : DadosCep -> str) (cep : str) (w : Mundo) :
  registro_responde cep w -> geocodificador_responde ->
  exists res novos, cadeia consulta1 cep w res novos.
Proof.
  intros (r1 & w1 & Hv & Hs & Hj) Hg.
  destruct (json r1) as [[| d] |] eqn:Hj1; [| | done].
  - eexists _, _. by eapply cadeia_cep_invalido.
  - destruct (Hg (consulta1 d) w1) as (r2 & w2 & Hn2 & [Hsem2 | (la & lo & Hp2)]).
    + destruct (Hg (endereco_cidade d) w2) as (r3 & w3 & Hn3 & [Hsem3 | (la & lo & Hp3)]).
      * destruct (tabela_por_prefixo (limpar_cep cep)) eqn:Ht.
        -- eexists _, _. by eapply cadeia_tabela.
        -- eexists _, _. by eapply cadeia_indisponivel.
      * eexists _, _. by eapply cadeia_cidade.
    + eexists _, _. by eapply cadeia_endereco_completo.
Qed.

(** C4, amended. A postal code that is not cached is resolved by exactly
    this chain, whenever the registry answers 200 with a JSON body and the
    geocoder answers each query with no result (a status other than 200,
    or an empty list) or with a first candidate that has a latitude and a
    longitude: the registry is queried and reports not-found (the
    resolution fails with [CepInvalido]); otherwise the geocoder is asked
    for the street-level address when the registry record has a street and
    for city and region when it has none; on no result it is asked for
    city and region; on no result the static table is looked up by the
    5-digit prefix, then by the 2-digit prefix; when no prefix matches the
    resolution fails with [CoordenadasIndisponiveis].
    The chain decides the resolver: whatever outcome and requests the
    chain derives from the answers of the services are the outcome and the
    requests of the resolver; and under the conditions above the chain does
    derive an outcome, so the resolver follows it. *)
Theorem C4_cadeia_do_cep (cep : str) (st : Estado Mundo) :
  CACHE_COORDENADAS st !! limpar_cep cep = None ->
  (forall res novos,
     cadeia primeira_consulta cep (mundo st) res novos ->
     (obter_coordenadas_viacep cep st).1 = res /\
     pedidos (obter_coordenadas_viacep cep st).2 = pedidos st ++ novos) /\
  (registro_responde cep (mundo st) -> geocodificador_responde ->
   segue_cadeia primeira_consulta cep st).
Proof.
  intros Hc. split.
  - intros res novos. by apply cadeia_determina_resultado.
  - intros Hreg Hgeo.
    destruct (cadeia_definida primeira_consulta cep (mundo st) Hreg Hgeo)
      as (res & novos & Hcad).
    destruct (cadeia_determina_resultado cep st res novos Hc Hcad) as [Hres Hped].
    exists novos. split; [exact Hped | by rewrite Hres].
Qed.

End AfirmacaoCadeia.

(** * The estimator at two nearly antipodal points *)

Section PontoDeFalha.
#[local] Existing Instance libm_glibc.

(** With the C library's sine and cosine the quantity [a] exceeds 1 at
    these points (by about 1e-16; in binary64 it is 1.0000000000000002). *)
Lemma haversine_a_excede_1 : 1 < haversine_a coord_sul coord_norte.
Proof.
  pose proof PI_RGT_0 as Hpi.
  unfold haversine_a, coord_sul, coord_norte, py_sin, py_cos, libm_glibc, radians.
  cbn [lat lon].
  repeat match goal with
  | |- context [Req_dec_T ?x ?y] =>
    destruct (Req_dec_T x y) as [? | ?]; try lra
  end.
Qed.

Lemma calcular_distancia_haversine_levanta_erro :
  calcular_distancia_haversine coord_sul coord_norte = inl ValueError.
Proof.
  pose proof haversine_a_excede_1 as Ha.
  destruct (calcular_distancia_haversine_casos coord_sul coord_norte)
    as [[[_ Hle] _] | [_ E]]; [lra | exact E].
Qed.

(** C2. At the points (-82, 0) and (82, 180), with a routing service that
    answers 503, the routing query fails and the estimator does not return
    the fallback estimate: the fallback computes [a > 1],
    [math.sqrt(1 - a)] raises [ValueError] inside the [try], the handler
    calls the fallback again and the same [ValueError] leaves the
    estimator. *)
Theorem C2_reserva_levanta_erro :
  consulta_falhou
    (resposta_osrm coord_sul coord_norte (estado_inicial mundo_sem_rotas)) /\
  calcular_distancia_haversine coord_sul coord_norte = inl ValueError /\
  calcular_distancia_osrm coord_sul coord_norte (estado_inicial mundo_sem_rotas)
  = (inl ValueError,
     apos_osrm coord_sul coord_norte (estado_inicial mundo_sem_rotas)).
Proof.
  split; [| split].
  - apply falhou_status. simpl. lia.
  - apply calcular_distancia_haversine_levanta_erro.
  - unfold calcular_distancia_osrm.
    rewrite calcular_distancia_haversine_levanta_erro. reflexivity.
Qed.

(** C3. At the points (-82, 0) and (82, 180), with the routing service
    unreachable, the estimator raises: the request raises, the handler
    calls the fallback, and the fallback's [ValueError] is not caught. No
    estimate is returned, with either tag. *)
Theorem C3_estimador_levanta_erro :
  (calcular_distancia_osrm coord_sul coord_norte (estado_inicial mundo_sem_rede)).1
  = inl ValueError /\
  forall est st',
    calcular_distancia_osrm coord_sul coord_norte (estado_inicial mundo_sem_rede)
    <> (inr est, st').
Proof.
  assert (E : (calcular_distancia_osrm coord_sul coord_norte
                 (estado_inicial mundo_sem_rede)).1 = inl ValueError).
  { unfold calcular_distancia_osrm.
    rewrite calcular_distancia_haversine_levanta_erro. reflexivity. }
  split; [exact E |].
  intros est st' H. rewrite H in E. discriminate E.
Qed.

End PontoDeFalha.

(** * The claims at concrete inputs *)

Lemma par_eta {A B} (p : A * B) : p = (p.1, p.2).
Proof. by destruct p. Defined.

Lemma geocodificador_exemplo_responde :
  @geocodificador_responde MundoExemplo servicos_exemplo.
Proof.
  intros q w. simpl. unfold nominatim_exemplo.
  repeat case_match; eexists _, _; (split; [reflexivity |]).
  1-3: right; eexists _, _; split; [reflexivity | by eexists _, _].
  left. by right.
Defined.

Section Exemplos.
#[local] Existing Instance libm_glibc.

Lemma C1_formula_da_taxa_witness :
  exists r est,
    (calcular_taxa_deslocamento (utf8 "17500-005") (estado_inicial mundo_exemplo)).1
      = sucesso r /\
    valor_taxa (calculo r) = py_round (calcular_taxa (distancia_metros est / 1000)).2 2.
Proof.
  assert (exists r,
    (calcular_taxa_deslocamento (utf8 "17500-005") (estado_inicial mundo_exemplo)).1
      = sucesso r)
    as [r E] by (vm_compute; eexists; reflexivity).
  destruct (C1_formula_da_taxa (utf8 "17500-005") [] (estado_inicial mundo_exemplo)
              (calcular_taxa_deslocamento (utf8 "17500-005")
                 (estado_inicial mundo_exemplo)).2 r)
    as (co & cd & est & st1 & _ & _ & _ & _ & Hv & _).
  { left. rewrite <- E. apply par_eta. }
  exists r, est. split; [exact E | exact Hv].
Defined.

Lemma C4_cadeia_do_cep_witness :
  (obter_coordenadas_viacep (utf8 "17120-000") (estado_inicial mundo_exemplo)).1
  = inr {| lat := -22.2189; lon := -49.0478;
           endereco := utf8 "Agudos-SP (aproximado)";
           cidade := utf8 "Agudos"; uf := utf8 "SP"; cep := None |} /\
  pedidos (obter_coordenadas_viacep (utf8 "17120-000") (estado_inicial mundo_exemplo)).2
  = [PedidoViaCep (utf8 "17120000");
     PedidoNominatim (utf8 "Agudos, SP, Brazil") false;
     PedidoNominatim (utf8 "Agudos, SP, Brazil") false] /\
  segue_cadeia primeira_consulta (utf8 "17120-000") (estado_inicial mundo_exemplo).
Proof.
  assert (Hc : CACHE_COORDENADAS (estado_inicial mundo_exemplo)
               !! limpar_cep (utf8 "17120-000") = None) by (vm_compute; reflexivity).
  destruct (C4_cadeia_do_cep (utf8 "17120-000") (estado_inicial mundo_exemplo) Hc)
    as [Hdecide Hsegue].
  split; [| split].
  - refine (proj1 (Hdecide _ _
      (cadeia_tabela primeira_consulta (utf8 "17120-000") mundo_exemplo
         (mkResposta 200 (Some (ViaCepDados dados_agudos))) mundo_exemplo dados_agudos
         (mkResposta 200 (Some [])) mundo_exemplo
         (mkResposta 200 (Some [])) mundo_exemplo
         (-22.2189, -49.0478) _ _ _ _ _ _ _ _))).
    all: try (vm_compute; reflexivity).
    all: right; reflexivity.
  - refine (proj2 (Hdecide _ _
      (cadeia_tabela primeira_consulta (utf8 "17120-000") mundo_exemplo
         (mkResposta 200 (Some (ViaCepDados dados_agudos))) mundo_exemplo dados_agudos
         (mkResposta 200 (Some [])) mundo_exemplo
         (mkResposta 200 (Some [])) mundo_exemplo
         (-22.2189, -49.0478) _ _ _ _ _ _ _ _))).
    all: try (vm_compute; reflexivity).
    all: right; reflexivity.
  - apply Hsegue.
    + eexists _, _. split; [vm_compute; reflexivity |]. split; [reflexivity | discriminate].
    + apply geocodificador_exemplo_responde.
Defined.

Lemma C5_cache_idempotente_witness :
  exists c,
    (resolver (PorCep (utf8 "17500-005")) (estado_inicial mundo_exemplo)).1 = inr c /\
    CACHE_COORDENADAS
      (resolver (PorCep (utf8 "17500-005")) (estado_inicial mundo_exemplo)).2
      !! utf8 "17500005" = Some c.
Proof.
  assert (exists c,
    (resolver (PorCep (utf8 "17500-005")) (estado_inicial mundo_exemplo)).1 = inr c)
    as [c E] by (vm_compute; eexists; reflexivity).
  exists c. split; [exact E |].
  apply (C5_cache_idempotente (PorCep (utf8 "17500-005")) (estado_inicial mundo_exemplo)).
  rewrite <- E. apply par_eta.
Defined.

Lemma C6_taxa_monotona_witness :
  valor_taxa (montar_calculo (mkEstimativa 40000 1800 osrm))
  <= valor_taxa (montar_calculo (mkEstimativa 50000 2400 osrm)).
Proof.
  apply (C6_taxa_monotona (mkEstimativa 40000 1800 osrm) (mkEstimativa 50000 2400 osrm)).
  simpl. lra.
Defined.

Lemma C7_taxa_nao_negativa_witness :
  exists r,
    (calcular_taxa_por_endereco (utf8 "Avenida Paulista, São Paulo")
       (estado_inicial mundo_exemplo)).1 = sucesso r /\
    0 <= valor_taxa (calculo r).
Proof.
  assert (exists r,
    (calcular_taxa_por_endereco (utf8 "Avenida Paulista, São Paulo")
       (estado_inicial mundo_exemplo)).1 = sucesso r)
    as [r E] by (vm_compute; eexists; reflexivity).
  exists r. split; [exact E |].
  apply (C7_taxa_nao_negativa [] (utf8 "Avenida Paulista, São Paulo")
           (estado_inicial mundo_exemplo)
           (calcular_taxa_por_endereco (utf8 "Avenida Paulista, São Paulo")
              (estado_inicial mundo_exemplo)).2 r).
  right. rewrite <- E. apply par_eta.
Defined.

Lemma C8_cep_malformado_witness :
  calcular (Some {["cep" := VStr (utf8 "123")]}) (estado_inicial mundo_exemplo)
  = ((JsonErro "CEP_INVALIDO" (Some (utf8 "123")), 400%Z), estado_inicial mundo_exemplo).
Proof.
  apply C8_cep_malformado.
  - vm_compute. reflexivity.
  - vm_compute. reflexivity.
  - vm_compute. lia.
Defined.

Lemma C9_rotas_de_teste_witness :
  teste (utf8 "17500-005") (estado_inicial mundo_exemplo)
  = calcular (Some {["cep" := VStr (utf8 "17500-005")]}) (estado_inicial mundo_exemplo).
Proof.
  apply (proj1 (C9_rotas_de_teste (utf8 "17500-005") (estado_inicial mundo_exemplo))).
  vm_compute. reflexivity.
Defined.

Lemma C10_falha_preserva_cache_witness :
  CACHE_COORDENADAS
    (resolver (PorCep (utf8 "99999-999")) (estado_inicial mundo_exemplo)).2
  = CACHE_COORDENADAS (estado_inicial mundo_exemplo).
Proof.
  assert (exists e,
    (resolver (PorCep (utf8 "99999-999")) (estado_inicial mundo_exemplo)).1 = inl e)
    as [e E] by (vm_compute; eexists; reflexivity).
  apply (C10_falha_preserva_cache (PorCep (utf8 "99999-999"))
           (estado_inicial mundo_exemplo) _ e).
  rewrite <- E. apply par_eta.
Defined.

(** C4 as stated fails for a registry record without a street: for
    17120-000 the registry answers Agudos-SP with an empty street and the
    geocoder answers every query, the code asks the geocoder for
    "Agudos, SP, Brazil" twice, and no run of the chain whose first query
    is the street-level address issues those requests. It also fails when
    a request raises: with the network down the resolver stops at the
    registry request with the exception of [requests.get]. *)
Lemma C4_counterexample :
  CACHE_COORDENADAS (estado_inicial mundo_exemplo) !! limpar_cep (utf8 "17120-000")
    = None /\
  registro_responde (utf8 "17120-000") mundo_exemplo /\
  @geocodificador_responde MundoExemplo servicos_exemplo /\
  pedidos (obter_coordenadas_viacep (utf8 "17120-000") (estado_inicial mundo_exemplo)).2
    = [PedidoViaCep (utf8 "17120000");
       PedidoNominatim (utf8 "Agudos, SP, Brazil") false;
       PedidoNominatim (utf8 "Agudos, SP, Brazil") false] /\
  ~ segue_cadeia endereco_rua (utf8 "17120-000") (estado_inicial mundo_exemplo) /\
  (obter_coordenadas_viacep (utf8 "17120-000") (estado_inicial mundo_sem_rede)).1
    = inl ErroRequisicao.
Proof.
  split; [vm_compute; reflexivity |].
  split.
  { eexists _, _. split; [vm_compute; reflexivity |]. split; [reflexivity | discriminate]. }
  split; [apply geocodificador_exemplo_responde |].
  split; [vm_compute; reflexivity |].
  split; [| vm_compute; reflexivity].
  intros (novos & Hp & Hc).
  assert (Hn : novos = [PedidoViaCep (utf8 "17120000");
                        PedidoNominatim (utf8 "Agudos, SP, Brazil") false;
                        PedidoNominatim (utf8 "Agudos, SP, Brazil") false]).
  { vm_compute in Hp. vm_compute. symmetry. exact Hp. }
  subst novos.
  inversion Hc as [r1 w1 Hv Hs Hj | r1 w1 d r2 w2 la lo Hv Hs Hj
                  | r1 w1 d r2 w2 r3 w3 la lo Hv Hs Hj Hn2 Hsem Hn3 Hp3 Hres Hq
                  | r1 w1 d r2 w2 r3 w3 coords Hv Hs Hj Hn2 Hsem Hn3 Hsem3 Ht Hres Hq
                  | r1 w1 d r2 w2 r3 w3 Hv Hs Hj Hn2 Hsem Hn3 Hsem3 Ht Hres Hq].
  all: vm_compute in Hv; inversion Hv; subst r1;
       vm_compute in Hj; inversion Hj; subst d;
       vm_compute in Hq; discriminate Hq.
Qed.

(** C8 as stated fails when the body also carries an address: the address
    takes precedence, the malformed postal code is ignored, requests are
    issued and the answer is 200. *)
Lemma C8_counterexample :
  let data : gmap string Valor :=
    <["endereco" := VStr (utf8 "Avenida Paulista, São Paulo")]>
      {["cep" := VStr (utf8 "123")]} in
  data !! "cep" = Some (VStr (utf8 "123")) /\
  length (limpar_cep (utf8 "123")) <> 8%nat /\
  (calcular (Some data) (estado_inicial mundo_exemplo)).1.2 = 200%Z /\
  pedidos (calcular (Some data) (estado_inicial mundo_exemplo)).2 <> [].
Proof.
  intros data. subst data.
  split; [vm_compute; reflexivity |].
  split; [vm_compute; lia |].
  split; [vm_compute; reflexivity | vm_compute; discriminate].
Qed.

(** C9 as stated fails in both routes: for the postal code "123" the POST
    answers [CEP_INVALIDO] without calling any service while the GET runs
    the calculator and answers [ERRO_CALCULO]; for an address with
    surrounding blanks the POST trims it and answers 200 while the GET
    geocodes it as given and answers 400. *)
Lemma C9_counterexample :
  (calcular (Some {["cep" := VStr (utf8 "123")]}) (estado_inicial mundo_exemplo)).1
    <> (teste (utf8 "123") (estado_inicial mundo_exemplo)).1 /\
  (calcular (Some {["endereco" := VStr (utf8 " Avenida Paulista, São Paulo ")]})
     (estado_inicial mundo_exemplo)).1.2
    <> (teste_endereco (utf8 " Avenida Paulista, São Paulo ")
          (estado_inicial mundo_exemplo)).1.2.
Proof.
  split; vm_compute; discriminate.
Qed.

End Exemplos.

(** * Further properties of the code *)

(** ** Postal-code text *)

Lemma limpar_cep_digitos (s : str) :
  Forall (fun c => isdigit c = true) (limpar_cep s).
Proof.
  unfold limpar_cep. apply Forall_forall. intros c Hc.
  by apply list_elem_of_filter in Hc as [? _].
Qed.

Lemma filter_digitos_id (l : str) :
  Forall (fun c => isdigit c = true) l ->
  filter (fun c => isdigit c = true) l = l.
Proof.
  induction 1 as [| c l Hc _ IH]; [done |].
  rewrite filter_cons_True by done. by rewrite IH.
Qed.

Lemma limpar_cep_id (l : str) :
  Forall (fun c => isdigit c = true) l -> limpar_cep l = l.
Proof. apply filter_digitos_id. Qed.

Lemma limpar_cep_app (a b : str) : limpar_cep (a ++ b) = limpar_cep a ++ limpar_cep b.
Proof. apply filter_app. Qed.

(** X1. [limpar_cep] keeps the characters that [str.isdigit] accepts, and
    only those, in their order, and is idempotent: cleaning a cleaned
    postal code changes nothing. Separators go ("17.500-005" becomes
    "17500005"); a digit outside ASCII stays ("1234567²" is left as it
    is, since [str.isdigit] accepts the superscript two). *)
Theorem X1_limpar_cep_idempotente (s : str) :
  Forall (fun c => isdigit c = true) (limpar_cep s) /\
  (forall c, c ∈ limpar_cep s <-> c ∈ s /\ isdigit c = true) /\
  limpar_cep (limpar_cep s) = limpar_cep s /\
  limpar_cep (utf8 "17.500-005") = utf8 "17500005" /\
  limpar_cep (utf8 "1234567²") = utf8 "1234567²".
Proof.
  split; [apply limpar_cep_digitos |].
  split; [intros c; unfold limpar_cep; rewrite list_elem_of_filter; tauto |].
  split; [| split; vm_compute; reflexivity].
  apply limpar_cep_id, limpar_cep_digitos.
Qed.

(** X2. [formatar_cep] never changes the digits of a postal code:
    cleaning the formatted text gives the cleaned input. When the input
    has exactly 8 digits ([str.isdigit]) the formatted text has 9
    characters, the first five digits, a hyphen and the last three;
    otherwise the input is returned as it is. "1234567²" has 8 digits and
    is formatted "12345-67²". *)
Theorem X2_formatar_cep_preserva_digitos (s : str) :
  limpar_cep (formatar_cep s) = limpar_cep s /\
  (length (limpar_cep s) = 8%nat ->
     length (formatar_cep s) = 9%nat /\
     formatar_cep s !! 5%nat = Some 45%N /\
     ate 5 (formatar_cep s) = ate 5 (limpar_cep s) /\
     desde 6 (formatar_cep s) = desde 5 (limpar_cep s)) /\
  (length (limpar_cep s) <> 8%nat -> formatar_cep s = s) /\
  formatar_cep (utf8 "1234567²") = utf8 "12345-67²".
Proof.
  pose proof (limpar_cep_digitos s) as Hd.
  split; [| split; [| split; [| vm_compute; reflexivity]]].
  - unfold formatar_cep.
    destruct (length (limpar_cep s) =? 8)%nat; [| reflexivity].
    rewrite !limpar_cep_app.
    replace (limpar_cep (utf8 "-")) with (@nil N) by (vm_compute; reflexivity).
    rewrite (limpar_cep_id (ate 5 (limpar_cep s))) by (by apply Forall_take).
    rewrite (limpar_cep_id (desde 5 (limpar_cep s))) by (by apply Forall_drop).
    simpl. apply take_drop.
  - intros Hl. unfold formatar_cep. rewrite (proj2 (Nat.eqb_eq _ _) Hl).
    destruct (limpar_cep s)
      as [| a1 [| a2 [| a3 [| a4 [| a5 [| a6 [| a7 [| a8 [| a9 l]]]]]]]]];
      simpl in Hl; try lia.
    repeat split; reflexivity.
  - intros Hl. unfold formatar_cep. by rewrite (proj2 (Nat.eqb_neq _ _) Hl).
Qed.

Lemma utf8_endereco_ : utf8 "endereco_" = [101; 110; 100; 101; 114; 101; 99; 111; 95]%N.
Proof. vm_compute. reflexivity. Qed.

(** X3. A postal code and an address never share a cache key: the key of
    the postal-code path is made of digits, the key of the address path
    starts with [endereco_]. *)
Theorem X3_chaves_disjuntas (cep_destino endereco_destino : str) :
  chave (PorCep cep_destino) <> chave (PorEndereco endereco_destino).
Proof.
  simpl. intros E. pose proof (limpar_cep_digitos cep_destino) as Hd.
  rewrite E, utf8_endereco_ in Hd. simpl in Hd. inversion Hd as [| ? ? He _].
  vm_compute in He. discriminate.
Qed.

Section Validacao.
Context {Mundo : Type} {servicos : Servicos Mundo} {libm : Libm}.

Lemma responder_nao_envelope (x : ResultadoTaxa * Estado Mundo) c d :
  (responder x).1.1 <> JsonErro c d.
Proof. by destruct x as [[r | cod m] st]. Qed.

(** X4. Whenever POST /calcular answers with an error envelope of its own
    ([DADOS_OBRIGATORIOS], [ENDERECO_VAZIO], [CEP_INVALIDO],
    [PARAMETRO_INVALIDO], [ERRO_SERVIDOR]) the state is untouched: no
    request was issued and the cache was neither read into nor written. *)
Theorem X4_erro_de_validacao_sem_efeito (data : option (gmap string Valor))
    (st : Estado Mundo) (codigo : string) (detalhe : option str) :
  (calcular data st).1.1 = JsonErro codigo detalhe ->
  (calcular data st).2 = st.
Proof.
  unfold calcular.
  repeat case_match; simpl; try done; intros Henvelope;
    by apply responder_nao_envelope in Henvelope.
Qed.

(** X5. The status code of the three calculating routes follows the body:
    it is 200 exactly when the body is a success payload, and otherwise
    400 or 500. *)
Theorem X5_status_segue_corpo (data : option (gmap string Valor))
    (s : str) (st : Estado Mundo) :
  let coerente (x : (CorpoResposta * Z) * Estado Mundo) :=
    (x.1.2 = 200%Z <-> exists r, x.1.1 = JsonResultado (sucesso r)) /\
    (x.1.2 = 200%Z \/ x.1.2 = 400%Z \/ x.1.2 = 500%Z) in
  coerente (calcular data st) /\ coerente (teste s st) /\
  coerente (teste_endereco s st).
Proof.
  assert (Hr : forall x : ResultadoTaxa * Estado Mundo,
    ((responder x).1.2 = 200%Z <-> exists r, (responder x).1.1 = JsonResultado (sucesso r)) /\
    ((responder x).1.2 = 200%Z \/ (responder x).1.2 = 400%Z \/ (responder x).1.2 = 500%Z)).
  { intros [[r | c m] st0]; simpl; split; auto; split; eauto; try done.
    intros [r [=]]. }
  simpl. split; [| split; apply Hr].
  unfold calcular. repeat case_match; try apply Hr; simpl;
    (split; [split; [done | by intros [r ?]] | auto]).
Qed.

(** X6. An address in the body takes precedence: when the body carries a
    string under ["endereco"], POST /calcular answers as if the body
    carried nothing else; a ["cep"] sent along is ignored. *)
Theorem X6_endereco_tem_precedencia (data : gmap string Valor) (s : str)
    (st : Estado Mundo) :
  data !! "endereco" = Some (VStr s) ->
  calcular (Some data) st = calcular (Some {["endereco" := VStr s]}) st.
Proof.
  intros He. unfold calcular.
  assert (Hs : (size data =? 0)%nat = false).
  { apply Nat.eqb_neq. intros Hz. apply map_size_empty_iff in Hz.
    subst data. by rewrite lookup_empty in He. }
  rewrite Hs, He, map_size_singleton, lookup_singleton_eq. reflexivity.
Qed.

End Validacao.

(** ** The great-circle estimate *)

Lemma asin_sqrt_limites (a : R) : 0 <= a <= 1 -> 0 <= asin (sqrt a) <= PI / 2.
Proof.
  intros [H0 H1]. pose proof PI_RGT_0 as Hpi.
  assert (Hs : 0 <= sqrt a <= 1).
  { split; [apply sqrt_pos |]. rewrite <- sqrt_1. apply sqrt_le_1; lra. }
  pose proof (asin_bound (sqrt a)) as [Hlb Hub].
  split; [| exact Hub].
  destruct (Rle_dec 0 (asin (sqrt a))) as [? | Hneg]; [done |].
  assert (Hsin : sin (asin (sqrt a)) < 0) by (apply sin_lt_0_var; lra).
  rewrite sin_asin in Hsin by lra. lra.
Qed.

Section ReservaEmGeral.
Context {libm : Libm}.

(** X7. The great-circle fallback raises nothing but the [ValueError] of
    [math.sqrt]. Whenever it returns, with [a] the quantity the code
    computed, its distance is 1.3 * 6371000 * 2 * asin(sqrt a) metres (the
    code's [atan2] form of the central angle is the arcsine form of the law
    of haversines), which lies between 0 and 1.3 times half the
    circumference of the sphere; its duration is 0.045 s per metre
    (80 km/h) and its tag is [haversine_ajustado]. *)
Theorem X7_reserva_quando_retorna (o d : Coordenada) :
  (forall e, calcular_distancia_haversine o d = inl e -> e = ValueError) /\
  (forall est, calcular_distancia_haversine o d = inr est ->
     distancia_metros est
       = 13 / 10 * (6371000 * (2 * asin (sqrt (haversine_a o d)))) /\
     0 <= distancia_metros est <= 13 / 10 * (PI * 6371000) /\
     duracao_segundos est = distancia_metros est * (45 / 1000) /\
     metodo est = haversine_ajustado).
Proof.
  split; [intros e; apply calcular_distancia_haversine_excecao |].
  intros est Hest.
  destruct (calcular_distancia_haversine_casos o d) as [[Ha E] | [_ E]];
    rewrite E in Hest; [| discriminate].
  injection Hest as <-.
  pose proof (asin_sqrt_limites _ Ha) as [Hc0 Hc1]. pose proof PI_RGT_0 as Hpi.
  unfold estimativa_de, RAIO_TERRA. cbn [distancia_metros duracao_segundos metodo].
  split; [lra |]. split; [split; nra |]. split; [lra | reflexivity].
Qed.

End ReservaEmGeral.

(** X17. The formula of the fallback is the law of haversines: evaluated
    with exact sine and cosine the quantity [a] lies in [0, 1], so neither
    square root fails, and the result is 1.3 times the great-circle
    distance on a sphere of radius 6 371 000 m, with the time that
    distance takes at 80 km/h. It is symmetric in the two points and is
    0 m for two points with the same latitude and longitude. *)
Theorem X17_formula_de_haversine (o d : Coordenada) :
  0 <= @haversine_a libm_exata o d <= 1 /\
  @calcular_distancia_haversine libm_exata o d = inr (estimativa_reserva o d) /\
  distancia_metros (estimativa_reserva o d)
    = distancia_grande_circulo o d * (13 / 10) /\
  duracao_segundos (estimativa_reserva o d) * (80 * 1000 / 3600)
    = distancia_metros (estimativa_reserva o d) /\
  estimativa_reserva o d = estimativa_reserva d o /\
  (lat o = lat d -> lon o = lon d -> distancia_metros (estimativa_reserva o d) = 0).
Proof.
  split; [apply haversine_a_entre_0_e_1 |].
  split; [apply calcular_distancia_haversine_correto |].
  split; [reflexivity |].
  split; [simpl; unfold VELOCIDADE_MEDIA; field |].
  assert (Hsim : distancia_grande_circulo o d = distancia_grande_circulo d o).
  { unfold distancia_grande_circulo, hav.
    replace ((lat o * PI / 180 - lat d * PI / 180) / 2)
      with (- ((lat d * PI / 180 - lat o * PI / 180) / 2)) by lra.
    replace ((lon o * PI / 180 - lon d * PI / 180) / 2)
      with (- ((lon d * PI / 180 - lon o * PI / 180) / 2)) by lra.
    rewrite !sin_neg. do 3 f_equal. ring. }
  split; [unfold estimativa_reserva; by rewrite Hsim |].
  intros Hlat Hlon. simpl. unfold distancia_grande_circulo, hav.
  rewrite Hlat, Hlon.
  replace ((lat d * PI / 180 - lat d * PI / 180) / 2) with 0 by lra.
  replace ((lon d * PI / 180 - lon d * PI / 180) / 2) with 0 by lra.
  rewrite sin_0.
  replace (0 ^ 2 + cos (lat d * PI / 180) * cos (lat d * PI / 180) * 0 ^ 2) with 0 by ring.
  rewrite sqrt_0, asin_0. ring.
Qed.

Section EstimadorEReserva.
Context {Mundo : Type} {servicos : Servicos Mundo} {libm : Libm}.

Lemma consulta_falhou_ou_deu_rota (o : option (Resposta CorpoOsrm)) (dd t : R) :
  consulta_falhou o -> consulta_deu_rota o dd t -> False.
Proof.
  intros Hf (r & data & route & rs & -> & Hs & Hj & Hc & Hrs & Hd & Ht).
  inversion Hf as [| ? Hs' | ? Hj' | ? ? Hj' Hc' | ? ? Hj' Hrs'
                  | ? ? ? ? Hj' Hrs' Hcampos]; subst; simplify_eq.
  - destruct Hrs' as [? | ?]; congruence.
  - destruct Hcampos as [? | ?]; congruence.
Qed.

(** X18. The estimator issues exactly one request, the routing query, and
    does not touch the cache. When the query succeeds (status 200, code
    "Ok", a first route with distance and duration) it returns that route
    tagged [osrm]. When the query fails in any way (request raised, status
    not 200, body not JSON, code missing or not "Ok", no route, incomplete
    route) its outcome is the outcome of the great-circle fallback at the
    same two points: the fallback's estimate tagged [haversine_ajustado],
    or the fallback's [ValueError]. Every query does one or the other. *)
Theorem X18_estimador_e_reserva (o d : Coordenada) (st : Estado Mundo) :
  (calcular_distancia_osrm o d st).2 = apos_osrm o d st /\
  (forall dd t, consulta_deu_rota (resposta_osrm o d st) dd t ->
     (calcular_distancia_osrm o d st).1 = inr (mkEstimativa dd t osrm)) /\
  (consulta_falhou (resposta_osrm o d st) ->
     (calcular_distancia_osrm o d st).1 = calcular_distancia_haversine o d) /\
  (consulta_falhou (resposta_osrm o d st) \/
   exists dd t, consulta_deu_rota (resposta_osrm o d st) dd t).
Proof.
  split; [apply calcular_distancia_osrm_estado |].
  destruct (calcular_distancia_osrm_casos o d st) as [[Hf E] | (dd & t & Hr & E)];
    rewrite E; simpl.
  - split; [| split; [done | by left]].
    intros dd t Hr. destruct (consulta_falhou_ou_deu_rota _ dd t Hf Hr).
  - split; [| split; [| right; by exists dd, t]].
    + intros dd' t' (r' & data' & route' & rs' & Hr' & _ & Hj' & _ & Hrs' & Hd' & Ht').
      destruct Hr as (r & data & route & rs & Hr0 & _ & Hj & _ & Hrs & Hd & Ht).
      congruence.
    + intros Hf. destruct (consulta_falhou_ou_deu_rota _ dd t Hf Hr).
Qed.

End EstimadorEReserva.

(** ** Rounding of the reported figures *)

Lemma Rabs_limites (x b : R) : Rabs x <= b -> - b <= x <= b.
Proof. unfold Rabs. destruct (Rcase_abs x); lra. Qed.

Lemma round_half_even_erro (x : R) : Rabs (IZR (round_half_even x) - x) <= 1 / 2.
Proof.
  destruct (floor_bounds x) as [Hf1 Hf2]. unfold round_half_even.
  apply Rabs_le.
  repeat destruct (Rlt_dec _ _); try destruct (Z.even _);
    rewrite ?plus_IZR; lra.
Qed.

Lemma py_round_erro (x : R) (n : nat) : Rabs (py_round x n - x) <= 1 / 2 / 10 ^ n.
Proof.
  pose proof (pow10_pos n) as Hp. unfold py_round.
  pose proof (round_half_even_erro (x * 10 ^ n)) as He.
  replace (IZR (round_half_even (x * 10 ^ n)) / 10 ^ n - x)
    with ((IZR (round_half_even (x * 10 ^ n)) - x * 10 ^ n) / 10 ^ n) by (field; lra).
  unfold Rdiv at 1. rewrite Rabs_mult, (Rabs_pos_eq (/ 10 ^ n)).
  - apply Rmult_le_compat_r; [left; by apply Rinv_0_lt_compat | done].
  - left. by apply Rinv_0_lt_compat.
Qed.

(** X8. Each figure of the payload is within half a hundredth of the
    exact value it rounds (one-way distance, round trip, excess, fee), and
    the reported round trip differs from twice the reported one-way
    distance by at most one hundredth of a kilometre. *)
Theorem X8_arredondamento_do_resultado (e : Estimativa) :
  let d := distancia_metros e / 1000 in
  Rabs (ida_km (montar_distancia e) - d) <= 1 / 200 /\
  Rabs (ida_volta_km (montar_distancia e) - 2 * d) <= 1 / 200 /\
  Rabs (km_excedente (montar_calculo e) - (calcular_taxa d).1) <= 1 / 200 /\
  Rabs (valor_taxa (montar_calculo e) - (calcular_taxa d).2) <= 1 / 200 /\
  Rabs (ida_volta_km (montar_distancia e) - 2 * ida_km (montar_distancia e)) <= 1 / 100.
Proof.
  intros d. simpl. fold d.
  assert (Hr : forall x, Rabs (py_round x 2 - x) <= 1 / 200).
  { intros x. pose proof (py_round_erro x 2) as H. simpl in H. lra. }
  pose proof (Hr d) as H1. pose proof (Hr (d * 2)) as H2.
  replace (2 * d) with (d * 2) by lra.
  do 4 (split; [by apply Hr |]).
  unfold py_round in *. simpl in *.
  set (a := round_half_even (d * 2 * (10 * (10 * 1)))) in *.
  set (b := round_half_even (d * (10 * (10 * 1)))) in *.
  apply Rabs_limites in H1, H2.
  assert (Hk : -2 < IZR (a - 2 * b) < 2).
  { rewrite minus_IZR, mult_IZR. lra. }
  assert (Hz : (-1 <= a - 2 * b <= 1)%Z).
  { destruct Hk as [Hk1 Hk2]. apply lt_IZR in Hk1, Hk2. lia. }
  destruct Hz as [Hz1 Hz2]. apply IZR_le in Hz1, Hz2.
  rewrite minus_IZR, mult_IZR in Hz1, Hz2.
  apply Rabs_le. lra.
Qed.

(** ** Cache hits, cache misses and clearing *)

Section CacheERede.
Context {Mundo : Type} {servicos : Servicos Mundo} {libm : Libm}.

Lemma resolver_em_cache (i : Identificador) (st : Estado Mundo) (c : Coordenada) :
  CACHE_COORDENADAS st !! chave i = Some c -> resolver i st = (inr c, st).
Proof.
  intros Hc. pose proof (resolver_efeito i st) as He.
  unfold efeito_resolver in He. by rewrite Hc in He.
Qed.

Lemma resolver_primeiro_pedido (i : Identificador) (st : Estado Mundo) :
  CACHE_COORDENADAS st !! chave i = None ->
  exists resto, pedidos (resolver i st).2 = pedidos st ++ primeiro_pedido i :: resto.
Proof.
  destruct i as [c | e]; simpl;
    unfold obter_coordenadas_viacep, obter_coordenadas_por_endereco, consulta_endereco;
    desdobrar; simpl; intros Hc; rewrite Hc.
  all: repeat passo.
  all: eexists; rewrite <- ?app_assoc; simpl; reflexivity.
Qed.

(** X9. POST /limpar-cache reports the number of entries the cache held
    and empties it, leaving the world and the request log alone; after it
    every resolution goes back to the network: its first request is the
    registry query (postal code) or the geocoder query (address). *)
Theorem X9_limpar_cache (st : Estado Mundo) (i : Identificador) :
  (limpar_cache st).1 = size (CACHE_COORDENADAS st) /\
  CACHE_COORDENADAS (limpar_cache st).2 = ∅ /\
  mundo (limpar_cache st).2 = mundo st /\
  pedidos (limpar_cache st).2 = pedidos st /\
  exists resto,
    pedidos (resolver i (limpar_cache st).2).2
      = pedidos st ++ primeiro_pedido i :: resto.
Proof.
  do 4 (split; [reflexivity |]).
  apply (resolver_primeiro_pedido i (limpar_cache st).2). simpl. apply lookup_empty.
Qed.

(** X10. With the depot and the destination both cached, a calculation by
    postal code issues exactly one request, the routing query, and leaves
    the cache as it was. It fails only if the estimator raises (the
    routing query failed and the fallback raised [ValueError]), and then
    with [ERRO_CALCULO]; otherwise it returns a success payload built from
    the two cached coordinates and the estimate. *)
Theorem X10_calculo_com_cache (cep_destino : str) (st : Estado Mundo)
    (co cd : Coordenada) :
  CACHE_COORDENADAS st !! limpar_cep CEP_ORIGEM = Some co ->
  CACHE_COORDENADAS st !! limpar_cep cep_destino = Some cd ->
  (calcular_taxa_deslocamento cep_destino st).2 = apos_osrm co cd st /\
  CACHE_COORDENADAS (apos_osrm co cd st) = CACHE_COORDENADAS st /\
  pedidos (apos_osrm co cd st)
    = pedidos st ++ [PedidoOsrm (lon co) (lat co) (lon cd) (lat cd)] /\
  match (calcular_distancia_osrm co cd st).1 with
  | inr est =>
    exists r,
      (calcular_taxa_deslocamento cep_destino st).1 = sucesso r /\
      origem r = mkOrigem CEP_ORIGEM (endereco co) (lat co) (lon co) /\
      destino r = DestinoCep (formatar_cep cep_destino) (endereco cd) (lat cd) (lon cd) /\
      distancia r = montar_distancia est /\
      calculo r = montar_calculo est
  | inl e =>
    e = ValueError /\
    consulta_falhou (resposta_osrm co cd st) /\
    (calcular_taxa_deslocamento cep_destino st).1 = erro "ERRO_CALCULO" ValueError
  end.
Proof.
  intros Ho Hd.
  pose proof (resolver_em_cache (PorCep CEP_ORIGEM) st co Ho) as E1.
  pose proof (resolver_em_cache (PorCep cep_destino) st cd Hd) as E2.
  change (obter_coordenadas_viacep CEP_ORIGEM st = (inr co, st)) in E1.
  change (obter_coordenadas_viacep cep_destino st = (inr cd, st)) in E2.
  pose proof (calcular_distancia_osrm_estado co cd st) as E3.
  pose proof (calcular_distancia_osrm_excecao co cd st) as E4.
  unfold calcular_taxa_deslocamento, fronteira, mbind, M_bind.
  rewrite E1, E2.
  destruct (calcular_distancia_osrm co cd st) as [[e | est] st3]; simpl in *; subst st3.
  - destruct (E4 e eq_refl) as (-> & _ & Hf). repeat split; done.
  - repeat split. eexists. repeat split.
Qed.

End CacheERede.

(** ** The country in the geocoding queries *)

(** [lower] works character by character, and only a capital sigma looks
    at its neighbours: the lower-case form of a text ends with the form of
    its suffix, read after the prefix. *)
Lemma lower_desde_sufixo (antes a b : str) :
  exists x, lower_desde antes (a ++ b) = x ++ lower_desde (rev a ++ antes) b.
Proof.
  revert antes. induction a as [| c a IH]; intros antes; [by exists [] |].
  destruct (IH (c :: antes)) as [x Hx].
  cbn [app lower_desde rev]. rewrite Hx, <- (app_assoc (rev a) [c] antes).
  eexists. by rewrite app_assoc.
Qed.

Lemma contem_app_r (sub a b : str) :
  contem sub b = true -> contem sub (a ++ b) = true.
Proof.
  intros Hb. induction a as [| c a IH]; [exact Hb |].
  cbn [app contem]. rewrite IH. apply orb_true_r.
Qed.

(** A text that ends in ", Brazil" has "brazil" in its lower-case form. *)
Lemma lower_termina_em_brazil (a : str) :
  contem (utf8 "brazil") (lower (a ++ utf8 ", Brazil")) = true.
Proof.
  unfold lower. destruct (lower_desde_sufixo [] a (utf8 ", Brazil")) as [x ->].
  apply contem_app_r. generalize (rev a ++ []). intros antes.
  vm_compute. reflexivity.
Qed.

(** X11. Every geocoding query names the country: the query built from a
    free-form address contains "brazil" or "brasil" whatever the case of
    the input, and both queries built from a registry record contain
    "brazil". *)
Theorem X11_consulta_nomeia_o_pais (e : str) (d : DadosCep) :
  contem (utf8 "brazil") (lower (consulta_endereco e))
    || contem (utf8 "brasil") (lower (consulta_endereco e)) = true /\
  contem (utf8 "brazil") (lower (primeira_consulta d)) = true /\
  contem (utf8 "brazil") (lower (endereco_cidade d)) = true.
Proof.
  split; [| split].
  - unfold consulta_endereco.
    destruct (contem (utf8 "brazil") (lower e)) eqn:H1;
      [cbn [negb andb]; by rewrite H1 |].
    destruct (contem (utf8 "brasil") (lower e)) eqn:H2; cbn [negb andb].
    + by rewrite H1, H2.
    + by rewrite lower_termina_em_brazil.
  - unfold primeira_consulta, endereco_rua, endereco_cidade.
    destruct (nao_vazio (logradouro d));
      rewrite !app_assoc; apply lower_termina_em_brazil.
  - unfold endereco_cidade. rewrite !app_assoc. apply lower_termina_em_brazil.
Qed.

(** ** The ['cep'] field of cached addresses *)

Lemma prefixo_endereco_limpar_cep (s : str) :
  startswith (utf8 "endereco_") (limpar_cep s) = false.
Proof.
  pose proof (limpar_cep_digitos s) as Hd. rewrite utf8_endereco_.
  destruct (limpar_cep s) as [| a r]; [reflexivity |].
  inversion Hd as [| ? ? Ha _]. cbn [startswith].
  destruct (N.eqb_spec 101 a) as [<- | _]; [| reflexivity].
  vm_compute in Ha. discriminate.
Qed.

Lemma startswith_app (p x : str) : startswith p (p ++ x) = true.
Proof. induction p as [| c p IH]; [done |]. simpl. by rewrite N.eqb_refl. Qed.

Lemma prefixo_endereco_chave (e : str) :
  startswith (utf8 "endereco_") (chave (PorEndereco e)) = true.
Proof. apply startswith_app. Qed.

Section CampoCep.
Context {Mundo : Type} {servicos : Servicos Mundo} {libm : Libm}.

Lemma obter_coordenadas_por_endereco_novo_tem_cep (e : str) (st : Estado Mundo) :
  CACHE_COORDENADAS st !! chave (PorEndereco e) = None ->
  match (obter_coordenadas_por_endereco e st).1 with
  | inr c => cep c <> None
  | inl _ => True
  end.
Proof.
  simpl. unfold obter_coordenadas_por_endereco. desdobrar. simpl.
  intros Hc. rewrite Hc. repeat passo.
Qed.

Lemma resolver_sem_key_error_cep (i : Identificador) (st : Estado Mundo) :
  match (resolver i st).1 with
  | inl e => e <> KeyError "cep"
  | inr _ => True
  end.
Proof.
  destruct i as [c | e]; simpl;
    unfold obter_coordenadas_viacep, obter_coordenadas_por_endereco; desdobrar; simpl.
  all: repeat passo.
Qed.

Lemma resolver_cache_coerente (i : Identificador) (st : Estado Mundo) :
  cache_coerente (CACHE_COORDENADAS st) ->
  cache_coerente (CACHE_COORDENADAS (resolver i st).2).
Proof.
  intros Hinv. pose proof (resolver_efeito i st) as He. unfold efeito_resolver in He.
  destruct (CACHE_COORDENADAS st !! chave i) as [c0 |] eqn:Hc.
  - by rewrite He.
  - destruct (resolver i st) as [[e | c] st'] eqn:Hr; simpl in He |- *; rewrite He; [done |].
    intros k c' Hk Hp.
    destruct (decide (chave i = k)) as [<- | Hne].
    + rewrite lookup_insert_eq in Hk. simplify_eq.
      destruct i as [s | s].
      * simpl in Hp. by rewrite prefixo_endereco_limpar_cep in Hp.
      * pose proof (obter_coordenadas_por_endereco_novo_tem_cep s st Hc) as Hn.
        simpl in Hr. by rewrite Hr in Hn.
    + rewrite lookup_insert_ne in Hk by done. by eapply Hinv.
Qed.

Lemma resolver_endereco_tem_cep (e : str) (st : Estado Mundo) :
  cache_coerente (CACHE_COORDENADAS st) ->
  match (obter_coordenadas_por_endereco e st).1 with
  | inr c => cep c <> None
  | inl _ => True
  end.
Proof.
  intros Hinv.
  destruct (CACHE_COORDENADAS st !! chave (PorEndereco e)) as [c0 |] eqn:Hc.
  - pose proof (resolver_em_cache (PorEndereco e) st c0 Hc) as Hr. simpl in Hr.
    rewrite Hr. simpl. eapply Hinv; [exact Hc | apply prefixo_endereco_chave].
  - by apply obter_coordenadas_por_endereco_novo_tem_cep.
Qed.

Lemma estado_bind {A B} (P : Estado Mundo -> Prop)
    (m : M Mundo A) (f : A -> M Mundo B) :
  (forall st, P st -> P (m st).2) ->
  (forall x st, P st -> P (f x st).2) ->
  forall st, P st -> P ((m ≫= f) st).2.
Proof.
  intros Hm Hf st Hst. specialize (Hm st Hst). unfold mbind, M_bind.
  destruct (m st) as [[e | x] st1]; [done | by apply Hf].
Qed.

Lemma calcular_taxa_deslocamento_coerente (s : str) (st : Estado Mundo) :
  cache_coerente (CACHE_COORDENADAS st) ->
  cache_coerente (CACHE_COORDENADAS (calcular_taxa_deslocamento s st).2).
Proof.
  intros Hinv. unfold calcular_taxa_deslocamento, fronteira.
  match goal with
  | |- context [match ?m st with _ => _ end] =>
    assert (Hm : cache_coerente (CACHE_COORDENADAS (m st).2));
      [| by destruct (m st) as [[e | r] st1]]
  end.
  revert st Hinv.
  apply (estado_bind (fun st => cache_coerente (CACHE_COORDENADAS st)));
    [apply (resolver_cache_coerente (PorCep _)) | intros co].
  apply (estado_bind (fun st => cache_coerente (CACHE_COORDENADAS st)));
    [apply (resolver_cache_coerente (PorCep _)) | intros cd].
  apply (estado_bind (fun st => cache_coerente (CACHE_COORDENADAS st)));
    [intros st Hst; by rewrite calcular_distancia_osrm_estado | intros est].
  apply (estado_bind (fun st => cache_coerente (CACHE_COORDENADAS st)));
    [done | done].
Qed.

Lemma calcular_taxa_por_endereco_coerente (s : str) (st : Estado Mundo) :
  cache_coerente (CACHE_COORDENADAS st) ->
  cache_coerente (CACHE_COORDENADAS (calcular_taxa_por_endereco s st).2).
Proof.
  intros Hinv. unfold calcular_taxa_por_endereco, fronteira.
  match goal with
  | |- context [match ?m st with _ => _ end] =>
    assert (Hm : cache_coerente (CACHE_COORDENADAS (m st).2));
      [| by destruct (m st) as [[e | r] st1]]
  end.
  revert st Hinv.
  apply (estado_bind (fun st => cache_coerente (CACHE_COORDENADAS st)));
    [apply (resolver_cache_coerente (PorCep _)) | intros co].
  apply (estado_bind (fun st => cache_coerente (CACHE_COORDENADAS st)));
    [apply (resolver_cache_coerente (PorEndereco _)) | intros cd].
  apply (estado_bind (fun st => cache_coerente (CACHE_COORDENADAS st)));
    [intros st Hst; by rewrite calcular_distancia_osrm_estado | intros est].
  apply (estado_bind (fun st => cache_coerente (CACHE_COORDENADAS st)));
    [intros st Hst; by destruct (cep cd) | intros c].
  apply (estado_bind (fun st => cache_coerente (CACHE_COORDENADAS st)));
    [done | done].
Qed.

Lemma executar_coerente (c : Chamada) (st : Estado Mundo) :
  cache_coerente (CACHE_COORDENADAS st) ->
  cache_coerente (CACHE_COORDENADAS (executar c st)).
Proof.
  intros Hinv. destruct c as [i | data | s | s]; simpl.
  - by apply resolver_cache_coerente.
  - unfold calcular. repeat case_match; simpl; try done;
      rewrite responder_estado;
      by (apply calcular_taxa_por_endereco_coerente
          || apply calcular_taxa_deslocamento_coerente).
  - unfold teste. rewrite responder_estado. by apply calcular_taxa_deslocamento_coerente.
  - unfold teste_endereco. rewrite responder_estado.
    by apply calcular_taxa_por_endereco_coerente.
Qed.

Lemma executar_todas_coerente (cs : list Chamada) (st : Estado Mundo) :
  cache_coerente (CACHE_COORDENADAS st) ->
  cache_coerente (CACHE_COORDENADAS (executar_todas cs st)).
Proof.
  revert st. induction cs as [| c cs IH]; intros st Hinv; [done |].
  simpl. apply IH. by apply executar_coerente.
Qed.

(** X12. The lookup [coord_destino['cep']] of [calcular_taxa_por_endereco]
    never fails. Every cache entry under an address key carries the field:
    this holds for the empty cache and is kept by every call of the
    service, so from such a state, after any calls, a calculation by
    address never ends in [KeyError 'cep']. *)
Theorem X12_cep_do_endereco_sempre_presente (st : Estado Mundo)
    (cs : list Chamada) (e : str) :
  cache_coerente (CACHE_COORDENADAS st) ->
  cache_coerente (CACHE_COORDENADAS (executar_todas cs st)) /\
  (calcular_taxa_por_endereco e (executar_todas cs st)).1
    <> erro "ERRO_CALCULO" (KeyError "cep").
Proof.
  intros Hinv0. pose proof (executar_todas_coerente cs st Hinv0) as Hinv.
  split; [exact Hinv |].
  generalize dependent (executar_todas cs st). clear Hinv0 st. intros st Hinv.
  unfold calcular_taxa_por_endereco, fronteira, mbind, M_bind.
  pose proof (resolver_sem_key_error_cep (PorCep CEP_ORIGEM) st) as H1.
  pose proof (resolver_cache_coerente (PorCep CEP_ORIGEM) st Hinv) as Hinv1.
  simpl in H1, Hinv1.
  destruct (obter_coordenadas_viacep CEP_ORIGEM st) as [[e1 | co] st1]; simpl in *;
    [congruence |].
  pose proof (resolver_sem_key_error_cep (PorEndereco e) st1) as H2.
  pose proof (resolver_endereco_tem_cep e st1 Hinv1) as H3.
  simpl in H2.
  destruct (obter_coordenadas_por_endereco e st1) as [[e2 | cd] st2]; simpl in *;
    [congruence |].
  pose proof (calcular_distancia_osrm_excecao co cd st2) as H4.
  destruct (calcular_distancia_osrm co cd st2) as [[e3 | est] st3]; simpl in *.
  - destruct (H4 e3 eq_refl) as (-> & _). discriminate.
  - by destruct (cep cd).
Qed.

End CampoCep.

(** ** Failures of the resolvers *)

Section FalhasDoResolver.
Context {Mundo : Type} {servicos : Servicos Mundo} {libm : Libm}.

(** X13. An unusable answer of the registry ends the postal-code path at
    once: when the registry request raises, answers a status other than
    200, answers a body that is not JSON or flags the code as unknown, the
    resolver fails after that single request (the geocoder is not asked,
    the table is not consulted) and the cache is unchanged. *)
Theorem X13_falha_do_registro (cep_destino : str) (st : Estado Mundo) :
  CACHE_COORDENADAS st !! limpar_cep cep_destino = None ->
  (forall r d, (viacep (limpar_cep cep_destino) (mundo st)).1 = Some r ->
     status_code r = 200%Z -> json r <> Some (ViaCepDados d)) ->
  (exists e, (obter_coordenadas_viacep cep_destino st).1 = inl e) /\
  pedidos (obter_coordenadas_viacep cep_destino st).2
    = pedidos st ++ [PedidoViaCep (limpar_cep cep_destino)] /\
  CACHE_COORDENADAS (obter_coordenadas_viacep cep_destino st).2 = CACHE_COORDENADAS st.
Proof.
  intros Hc Hreg. unfold obter_coordenadas_viacep. desdobrar. simpl. rewrite Hc.
  destruct (viacep (limpar_cep cep_destino) (mundo st)) as [[[sc j] |] w] eqn:Hv;
    simpl in *; [| eauto].
  destruct (sc =? 200)%Z eqn:Hs; simpl; [| eauto].
  apply Z.eqb_eq in Hs. subst sc.
  destruct j as [[| d] |]; simpl; [eauto | | eauto].
  exfalso. by eapply (Hreg _ d eq_refl eq_refl).
Qed.

(** X14. The address path has no fallback: when the geocoder answers a
    status other than 200 or an empty list, the resolver fails with
    "address not found" after that single request, and the cache is
    unchanged. *)
Theorem X14_endereco_nao_encontrado (e : str) (st : Estado Mundo)
    (r : Resposta (list Candidato)) :
  CACHE_COORDENADAS st !! chave (PorEndereco e) = None ->
  (nominatim (consulta_endereco e) true (mundo st)).1 = Some r ->
  sem_resultado r ->
  (obter_coordenadas_por_endereco e st).1 = inl (EnderecoNaoEncontrado e) /\
  pedidos (obter_coordenadas_por_endereco e st).2
    = pedidos st ++ [PedidoNominatim (consulta_endereco e) true] /\
  CACHE_COORDENADAS (obter_coordenadas_por_endereco e st).2 = CACHE_COORDENADAS st.
Proof.
  simpl. intros Hc Hn Hsem.
  unfold obter_coordenadas_por_endereco, consulta_endereco in *. desdobrar. simpl.
  rewrite Hc.
  destruct (nominatim _ true (mundo st)) as [o w]. simpl in Hn. subst o. simpl.
  destruct r as [sc j]. destruct Hsem as [Hs | Hj]; simpl in *.
  - apply Z.eqb_neq in Hs. by rewrite Hs.
  - subst j. by destruct (sc =? 200)%Z.
Qed.

(** X15. Postal codes of the depot's region always resolve once the
    registry knows them: a code whose cleaned text (the characters
    [str.isdigit] accepts, as [limpar_cep] keeps them) starts with 17 never
    ends in "coordinates unavailable", because the table holds the 2-digit
    prefix 17. *)
Theorem X15_prefixo_17_sempre_resolve (cep_destino : str) (st : Estado Mundo) :
  ate 2 (limpar_cep cep_destino) = utf8 "17" ->
  (obter_coordenadas_viacep cep_destino st).1
    <> inl (CoordenadasIndisponiveis cep_destino).
Proof.
  intros H17.
  assert (Ht : coordenadas_cidades !! ate 2 (limpar_cep cep_destino) <> None).
  { rewrite H17. by vm_compute. }
  unfold obter_coordenadas_viacep. desdobrar. simpl.
  revert Ht. generalize (ate 2 (limpar_cep cep_destino)). intros k2 Ht.
  repeat passo.
Qed.

End FalhasDoResolver.

(** ** Shape of the fee *)

(** X16. The fee rule in closed form: the excess is [max(0, 2d - 60)] and
    the fee is 1.60 times the excess, for every one-way distance [d]; the
    fee has no jump at the franchise: two distances that differ by [h]
    kilometres give fees that differ by at most [3.2 * h]. *)
Theorem X16_taxa_em_forma_fechada (d1 d2 : R) :
  calcular_taxa d1 = (Rmax 0 (2 * d1 - 60), 16 / 10 * Rmax 0 (2 * d1 - 60)) /\
  Rabs ((calcular_taxa d1).2 - (calcular_taxa d2).2) <= 32 / 10 * Rabs (d1 - d2).
Proof.
  assert (Hf : forall d, calcular_taxa d
                         = (Rmax 0 (2 * d - 60), 16 / 10 * Rmax 0 (2 * d - 60))).
  { intros d. destruct (Rlt_dec 30 d) as [Hd | Hd].
    - rewrite calcular_taxa_acima by done. rewrite Rmax_right by lra. f_equal. lra.
    - rewrite calcular_taxa_dentro by lra. rewrite Rmax_left by lra. f_equal. lra. }
  split; [apply Hf |].
  rewrite !Hf. simpl. unfold Rmax.
  repeat destruct (Rle_dec _ _); unfold Rabs; repeat destruct (Rcase_abs _); lra.
Qed.

(** * The further properties at concrete inputs *)

Section MaisExemplos.
#[local] Existing Instance libm_glibc.

Lemma X4_erro_de_validacao_sem_efeito_witness :
  (calcular (Some {["cep" := VStr (utf8 "123")]}) (estado_inicial mundo_exemplo)).2
  = estado_inicial mundo_exemplo.
Proof.
  apply (X4_erro_de_validacao_sem_efeito (Some {["cep" := VStr (utf8 "123")]})
           (estado_inicial mundo_exemplo) "CEP_INVALIDO" (Some (utf8 "123"))).
  vm_compute. reflexivity.
Defined.

Lemma X6_endereco_tem_precedencia_witness :
  calcular (Some (<["endereco" := VStr (utf8 "Avenida Paulista, São Paulo")]>
                    {["cep" := VStr (utf8 "123")]}))
    (estado_inicial mundo_exemplo)
  = calcular (Some {["endereco" := VStr (utf8 "Avenida Paulista, São Paulo")]})
      (estado_inicial mundo_exemplo).
Proof.
  apply X6_endereco_tem_precedencia. vm_compute. reflexivity.
Defined.

Lemma X7_reserva_quando_retorna_witness :
  0 <= distancia_metros (estimativa_reserva coord_bauru coord_marilia)
    <= 13 / 10 * (PI * 6371000).
Proof.
  apply (proj2 (@X7_reserva_quando_retorna libm_exata coord_bauru coord_marilia)
           (estimativa_reserva coord_bauru coord_marilia)
           (calcular_distancia_haversine_correto coord_bauru coord_marilia)).
Defined.

Lemma X18_estimador_e_reserva_witness :
  (calcular_distancia_osrm coord_sul coord_norte (estado_inicial mundo_sem_rede)).1
  = calcular_distancia_haversine coord_sul coord_norte.
Proof.
  apply (X18_estimador_e_reserva coord_sul coord_norte (estado_inicial mundo_sem_rede)).
  exact falhou_requisicao.
Defined.

Lemma X10_calculo_com_cache_witness :
  let st :=
    mkEstado (<[utf8 "17017337" := coord_bauru]> (<[utf8 "17500005" := coord_marilia]> ∅))
             mundo_exemplo [] in
  pedidos (calcular_taxa_deslocamento (utf8 "17500-005") st).2
  = [PedidoOsrm (lon coord_bauru) (lat coord_bauru) (lon coord_marilia) (lat coord_marilia)].
Proof.
  intros st.
  destruct (X10_calculo_com_cache (utf8 "17500-005") st coord_bauru coord_marilia)
    as (Hst & _ & Hped & _).
  - vm_compute. reflexivity.
  - vm_compute. reflexivity.
  - rewrite Hst, Hped. reflexivity.
Defined.

Lemma X12_cep_do_endereco_sempre_presente_witness :
  (calcular_taxa_por_endereco (utf8 "Avenida Paulista, São Paulo")
     (executar_todas [ChamadaTesteEndereco (utf8 "Avenida Paulista, São Paulo")]
        (estado_inicial mundo_exemplo))).1
  <> erro "ERRO_CALCULO" (KeyError "cep").
Proof.
  apply (X12_cep_do_endereco_sempre_presente (estado_inicial mundo_exemplo)
           [ChamadaTesteEndereco (utf8 "Avenida Paulista, São Paulo")]
           (utf8 "Avenida Paulista, São Paulo")).
  intros k c Hk. simpl in Hk. by rewrite lookup_empty in Hk.
Defined.

Lemma X13_falha_do_registro_witness :
  pedidos (obter_coordenadas_viacep (utf8 "99999-999") (estado_inicial mundo_exemplo)).2
  = [] ++ [PedidoViaCep (limpar_cep (utf8 "99999-999"))].
Proof.
  apply (X13_falha_do_registro (utf8 "99999-999") (estado_inicial mundo_exemplo)).
  - vm_compute. reflexivity.
  - intros r d Hr _. vm_compute in Hr. inversion Hr. subst r. simpl. discriminate.
Defined.

Lemma X14_endereco_nao_encontrado_witness :
  (obter_coordenadas_por_endereco (utf8 "Rua Inexistente")
     (estado_inicial mundo_exemplo)).1
  = inl (EnderecoNaoEncontrado (utf8 "Rua Inexistente")).
Proof.
  apply (X14_endereco_nao_encontrado (utf8 "Rua Inexistente")
           (estado_inicial mundo_exemplo) (mkResposta 200 (Some []))).
  - vm_compute. reflexivity.
  - vm_compute. reflexivity.
  - right. reflexivity.
Defined.

Lemma X15_prefixo_17_sempre_resolve_witness :
  (obter_coordenadas_viacep (utf8 "17120-000") (estado_inicial mundo_exemplo)).1
  <> inl (CoordenadasIndisponiveis (utf8 "17120-000")).
Proof.
  apply X15_prefixo_17_sempre_resolve. vm_compute. reflexivity.
Defined.

End MaisExemplos.
